(** * arduinoSketch.ino: the MAX / Arduino colour detector firmware

    A model of the sketch at the level it is written: the C functions
    [setup], [loop], [lightLED], [setLEDSequence], [ledTest] are state
    transformers over an AVR machine state, and every inline [asm]
    statement is executed instruction by instruction by [exec].  The
    handler [ISR(INT0_vect)] is modelled the same way, its
    [USART_Transmit] spin loop by a function with fuel.

    Every load and store the sketch makes in the data space [mem] and
    every [cli] / [sei] is appended to a chronological [trace], so that
    orderings can be stated.  What is not in the sketch's text is not
    modelled: the hardware's interrupt entry and [reti], the prologue
    and epilogue the compiler generates for [ISR()], and the inside of
    the Arduino core's [delay] and [Serial]. *)

From Stdlib Require Import ZArith List Bool Lia.
Import ListNotations.
Local Open Scope Z_scope.

(** ** Constants of <avr/io.h>

    The sketch names its registers and bits through the macros of
    <avr/io.h>, which is not part of the repository.  They are taken as
    a parameter; [ATmega328P] gives the values of the Arduino Uno's
    controller (data-space addresses, as in iom328p.h). *)

Record device : Type := mkDevice {
  DDRB : Z;      (* data direction register, port B *)
  PORTB : Z;     (* output latch, port B *)
  DDRD : Z;      (* data direction register, port D *)
  DDD2 : Z;      (* bit of DDRD for pin INT0 *)
  EICRA : Z;     (* external interrupt control register A *)
  EIMSK : Z;     (* external interrupt mask register *)
  UCSR0A : Z;    (* USART0 control and status register A *)
  UDRE0 : Z;     (* bit of UCSR0A: transmit data register empty *)
  UDR0 : Z;      (* USART0 data register *)
  RAMSTART : Z;  (* first address of internal SRAM *)
  RAMEND : Z     (* last address of internal SRAM *)
}.

Definition ATmega328P : device :=
  {| DDRB := 0x24; PORTB := 0x25; DDRD := 0x2A; DDD2 := 2;
     EICRA := 0x69; EIMSK := 0x3D;
     UCSR0A := 0xC0; UDRE0 := 5; UDR0 := 0xC6;
     RAMSTART := 0x100; RAMEND := 0x8FF |}.

(** [__SFR_OFFSET] and [_SFR_IO_ADDR] of avr/sfr_defs.h: the I/O address
    used by [in] / [out] / [cbi] is the data-space address minus 0x20. *)
Definition SFR_OFFSET : Z := 0x20.
Definition SFR_IO_ADDR (sfr : Z) : Z := sfr - SFR_OFFSET.

(** The special function registers lie between the register file and
    the SRAM, and the ones the sketch writes are distinct. *)
Definition wf_device (d : device) : Prop :=
  SFR_OFFSET <= DDRB d < RAMSTART d /\
  SFR_OFFSET <= PORTB d < RAMSTART d /\
  SFR_OFFSET <= UCSR0A d < RAMSTART d /\
  SFR_OFFSET <= UDR0 d < RAMSTART d /\
  PORTB d <> DDRB d /\ PORTB d <> UDR0 d /\ PORTB d <> UCSR0A d /\
  UDR0 d <> UCSR0A d /\
  RAMSTART d <= RAMEND d.

Definition in_sram (d : device) (a : Z) : Prop := RAMSTART d <= a <= RAMEND d.

(** ** Machine state *)

(** The data space is flat: an I/O register is a cell like any other,
    at its address.  That is exact for the accesses the sketch names;
    for the handler's accesses through X and the stack pointer it is
    exact when these address SRAM, which the results that need it
    assume ([in_sram]). *)

(** The registers the sketch's assembly names.  [r16], [r17], [r18] are
    written in the source; [Op0] and [Op1] stand for the registers the
    compiler picks for the operands [%0] and [%1] of the handler's
    [asm] statement, taken to be different from the named ones.  The
    pointer register X (r27:r26) is a field of its own. *)
Inductive reg : Type := R16 | R17 | R18 | Op0 | Op1.

Definition reg_eqb (a b : reg) : bool :=
  match a, b with
  | R16, R16 | R17, R17 | R18, R18 | Op0, Op0 | Op1, Op1 => true
  | _, _ => false
  end.

Inductive event : Type :=
| EvCli                         (* global interrupts masked *)
| EvSei                         (* global interrupts enabled *)
| EvStore (addr val : Z)        (* a byte written to the data space *)
| EvLoad (addr val : Z)         (* a byte read from the data space *)
| EvDelay (ms : Z)              (* delay(ms) *)
| EvSerialBegin (baud : Z).     (* Serial.begin(baud) *)

Record machine : Type := mkMachine {
  regs : reg -> Z;       (* register file *)
  X : Z;                 (* pointer register X *)
  SP : Z;                (* stack pointer *)
  SREG : Z;              (* status register; bit 7 is the I flag *)
  mem : Z -> Z;          (* data space: I/O registers and SRAM *)
  rx : list Z;           (* bytes waiting in the Serial receive buffer *)
  _receivedByte : Z;     (* the sketch's global variable *)
  trace : list event     (* what happened so far, oldest first *)
}.

Definition I_flag (s : machine) : bool := Z.testbit (SREG s) 7.

Definition log (e : event) (s : machine) : machine :=
  mkMachine (regs s) (X s) (SP s) (SREG s) (mem s) (rx s) (_receivedByte s)
            (trace s ++ [e]).

Definition set_reg (r : reg) (v : Z) (s : machine) : machine :=
  mkMachine (fun r' => if reg_eqb r' r then v else regs s r')
            (X s) (SP s) (SREG s) (mem s) (rx s) (_receivedByte s) (trace s).

Definition set_SP (v : Z) (s : machine) : machine :=
  mkMachine (regs s) (X s) v (SREG s) (mem s) (rx s) (_receivedByte s) (trace s).

Definition set_SREG (v : Z) (s : machine) : machine :=
  mkMachine (regs s) (X s) (SP s) v (mem s) (rx s) (_receivedByte s) (trace s).

Definition set_rx (q : list Z) (s : machine) : machine :=
  mkMachine (regs s) (X s) (SP s) (SREG s) (mem s) q (_receivedByte s) (trace s).

Definition set_receivedByte (v : Z) (s : machine) : machine :=
  mkMachine (regs s) (X s) (SP s) (SREG s) (mem s) (rx s) v (trace s).

(** A store to the data space: the cell changes and the write is seen. *)
Definition store (a v : Z) (s : machine) : machine :=
  mkMachine (regs s) (X s) (SP s) (SREG s)
            (fun a' => if a' =? a then v else mem s a')
            (rx s) (_receivedByte s) (trace s ++ [EvStore a v]).

(** A load from the data space into a register. *)
Definition load (r : reg) (a : Z) (s : machine) : machine :=
  log (EvLoad a (mem s a)) (set_reg r (mem s a) s).

(** ** The AVR instructions of the inline assembly *)

Inductive instr : Type :=
| LDI (r : reg) (k : Z)     (* ldi r, k    : r <- k *)
| OUT (io : Z) (r : reg)    (* out io, r   : I/O register io <- r *)
| CBI (io bit : Z)          (* cbi io, bit : clear a bit of I/O register io *)
| CLI                       (* cli         : I flag <- 0 *)
| SEI                       (* sei         : I flag <- 1 *)
| PUSH (r : reg)            (* push r      : (SP) <- r, SP <- SP - 1 *)
| POP (r : reg)             (* pop r       : SP <- SP + 1, r <- (SP) *)
| ST_X (r : reg)            (* st X, r     : (X) <- r *)
| LD_X (r : reg)            (* ld r, X     : r <- (X) *)
| STS (addr : Z) (r : reg). (* sts addr, r : (addr) <- r *)

Definition exec (i : instr) (s : machine) : machine :=
  match i with
  | LDI r k => set_reg r k s
  | OUT io r => store (io + SFR_OFFSET) (regs s r) s
  | CBI io bit =>
      store (io + SFR_OFFSET) (Z.clearbit (mem s (io + SFR_OFFSET)) bit) s
  | CLI => log EvCli (set_SREG (Z.clearbit (SREG s) 7) s)
  | SEI => log EvSei (set_SREG (Z.setbit (SREG s) 7) s)
  | PUSH r => set_SP (SP s - 1) (store (SP s) (regs s r) s)
  | POP r => load r (SP s + 1) (set_SP (SP s + 1) s)
  | ST_X r => store (X s) (regs s r) s
  | LD_X r => load r (X s) s
  | STS addr r => store addr (regs s r) s
  end.

(** ** Observations *)

(** The bytes written to data-space address [a], oldest first. *)
Fixpoint stores_to (a : Z) (tr : list event) : list Z :=
  match tr with
  | [] => []
  | EvStore a' v :: tr' =>
      if a' =? a then v :: stores_to a tr' else stores_to a tr'
  | _ :: tr' => stores_to a tr'
  end.

(** The sequence of values written to the LED port. *)
Definition port_writes (d : device) (s : machine) : list Z :=
  stores_to (PORTB d) (trace s).

(** The sequence of bytes handed to the serial transmitter. *)
Definition transmitted (d : device) (s : machine) : list Z :=
  stores_to (UDR0 d) (trace s).

(** The value the LED port holds. *)
Definition port (d : device) (s : machine) : Z := mem s (PORTB d).

(** The four output patterns of the sketch's comments (active low). *)
Definition RED : Z := 0x0d.
Definition GREEN : Z := 0x0b.
Definition BLUE : Z := 0x07.
Definition NONE : Z := 0x0e.

Definition is_pattern (v : Z) : Prop :=
  v = RED \/ v = GREEN \/ v = BLUE \/ v = NONE.

(** How many of the bits 0..3 of [v] are low, that is how many LEDs a
    port value lights. *)
Definition low_bits (v : Z) : nat :=
  length (filter (fun i => negb (Z.testbit v i)) [0; 1; 2; 3]).

(** ** The sketch *)

(** [setLEDSequence]: the [switch] picks one [ldi r16, k] ... *)
Definition setLEDSequence_ldi (ledPin : Z) : instr :=
  match ledPin with
  | 1 => LDI R16 0x0d          (* Red LED: 0000 1101 *)
  | 2 => LDI R16 0x0b          (* Green LED: 0000 1011 *)
  | 3 => LDI R16 0x07          (* Blue LED: 0000 0111 *)
  | _ => LDI R16 0x0e          (* case 0, default: NoColor LED: 0000 1110 *)
  end.

(** ... and a second [asm] statement loads r16 to PORTB. *)
Definition setLEDSequence_out (d : device) : instr :=
  OUT (SFR_IO_ADDR (PORTB d)) R16.

Definition setLEDSequence (d : device) (ledPin : Z) (s : machine) : machine :=
  let s := exec (setLEDSequence_ldi ledPin) s in
  exec (setLEDSequence_out d) s.

(** [lightLED]: a [char] is a signed byte; 'r' = 114, 'g' = 103, 'b' = 98. *)
Definition lightLED (d : device) (code : Z) (s : machine) : machine :=
  match code with
  | 114 => setLEDSequence d 1 s
  | 103 => setLEDSequence d 2 s
  | 98 => setLEDSequence d 3 s
  | _ => setLEDSequence d 0 s
  end.

Definition delay (ms : Z) (s : machine) : machine := log (EvDelay ms) s.

Definition ledTest (d : device) (s : machine) : machine :=
  let s := delay 1000 s in
  let s := setLEDSequence d 1 s in
  let s := delay 1000 s in
  let s := setLEDSequence d 2 s in
  let s := delay 1000 s in
  let s := setLEDSequence d 3 s in
  let s := delay 1000 s in
  setLEDSequence d 0 s.

(** The Arduino [Serial] object belongs to the core library.  Its
    receive side is the queue [rx].  [Serial.begin] is recorded as one
    event: what it writes to the USART's control and baud rate
    registers is not modelled, and no result below speaks of those
    registers after [setup].  It writes none of DDRB, PORTB, DDRD,
    EICRA, EIMSK. *)
Definition Serial_begin (baud : Z) (s : machine) : machine :=
  log (EvSerialBegin baud) s.

Definition Serial_available (s : machine) : Z := Z.of_nat (length (rx s)).

Definition Serial_read (s : machine) : Z * machine :=
  match rx s with
  | [] => (-1, s)
  | b :: q => (b, set_rx q s)
  end.

(** Conversion of the [int] returned by [Serial.read] to [char]. *)
Definition to_char (v : Z) : Z := (v + 128) mod 256 - 128.

(** A read-modify-write of a register from C, [sfr |= bits]: the
    register is loaded, then stored. *)
Definition or_assign (a bits : Z) (s : machine) : machine :=
  let s := log (EvLoad a (mem s a)) s in
  store a (Z.lor (mem s a) bits) s.

Definition setup (d : device) (s : machine) : machine :=
  (* Set LED pins to OUTPUT direction *)
  let s := exec (LDI R18 0x0f) s in
  let s := exec (OUT (SFR_IO_ADDR (DDRB d)) R18) s in
  (* Sets INT0 as input *)
  let s := exec (CBI (SFR_IO_ADDR (DDRD d)) (DDD2 d)) s in
  (* EICRA |= 0x01; EIMSK |= 0x01 *)
  let s := or_assign (EICRA d) 0x01 s in
  let s := or_assign (EIMSK d) 0x01 s in
  (* enable global interrupt *)
  let s := exec SEI s in
  (* Startup test *)
  let s := ledTest d s in
  (* Start communication with MAX *)
  Serial_begin 9600 s.

Definition loop (d : device) (s : machine) : machine :=
  if Serial_available s >? 0 then
    let (v, s) := Serial_read s in
    let s := set_receivedByte (to_char v) s in
    lightLED d (_receivedByte s) s
  else s.

(** [n] iterations of [loop]. *)
Fixpoint loops (d : device) (n : nat) (s : machine) : machine :=
  match n with
  | O => s
  | S n' => loops d n' (loop d s)
  end.

(** The handler's spin loop, labelled [USART_Transmit] in the source:
<<
    USART_Transmit:  st X, %1
                     ld r16, X
                     sbrs r16, %2
                     rjmp USART_Transmit
>>
    [sbrs] skips the [rjmp] when bit [%2] = UDRE0 of r16 is set.  The
    loop has no counter; [fuel] bounds the iterations of the model, and
    [None] means the loop is still spinning when the fuel is used up. *)
Fixpoint USART_Transmit (d : device) (fuel : nat) (s : machine)
  : option machine :=
  match fuel with
  | O => None
  | S fuel' =>
      let s := exec (ST_X Op1) s in
      let s := exec (LD_X R16) s in
      if Z.testbit (regs s R16) (UDRE0 d)
      then Some s
      else USART_Transmit d fuel' s
  end.

(** The operands of the handler's [asm] statement: [%0] holds the value
    read from SREG, [%1] the (low byte of the) constant
    [_SFR_IO_ADDR(UCSR0A)]. *)
Definition ISR_operands (d : device) (s : machine) : machine :=
  let s := set_reg Op0 (SREG s) s in
  set_reg Op1 (Z.land (SFR_IO_ADDR (UCSR0A d)) 0xFF) s.

(** [ISR(INT0_vect)]: the body of the handler as the sketch writes it,
    the [asm] block, then [UDR0 = val] with [val] in r17.  The state it
    is given is the machine when the body starts, the state it returns
    the machine when the body ends: the interrupt entry, the registers
    the compiler saves around the body and the [reti] are not in the
    sketch and not in the model. *)
Definition ISR_INT0_vect (d : device) (fuel : nat) (s : machine)
  : option machine :=
  let s := ISR_operands d s in
  let s := exec CLI s in
  let s := exec (PUSH Op0) s in
  match USART_Transmit d fuel s with
  | None => None
  | Some s =>
      let s := exec (LDI R17 0x43) s in
      let s := exec (POP Op0) s in
      let s := exec SEI s in
      Some (exec (STS (UDR0 d) R17) s)
  end.

(** The constant the [switch] of [setLEDSequence] loads into r16. *)
Definition pin_pattern (ledPin : Z) : Z :=
  match setLEDSequence_ldi ledPin with
  | LDI _ k => k
  | _ => 0
  end.

(** ** Foreground and handler together

    The foreground loop can be interrupted between any two
    instructions.  Between the two [asm] statements of [setLEDSequence]
    the chosen pattern lives in r16 only, so that program point is made
    explicit: [AtLoop] is the top of [loop], [AtOut] is just before
    [out PORTB, r16]. *)

(** The argument [lightLED] passes to [setLEDSequence]. *)
Definition lightLED_arg (code : Z) : Z :=
  match code with
  | 114 => 1
  | 103 => 2
  | 98 => 3
  | _ => 0
  end.

Inductive point : Type := AtLoop | AtOut.

Record system : Type := mkSystem { cpu : machine; pc : point }.

(** One foreground step: from the top of [loop] to the [ldi] of
    [setLEDSequence] (or around the loop when no byte waits), or the
    [out] that finishes [setLEDSequence]. *)
Definition fg_step (d : device) (c : system) : system :=
  match pc c with
  | AtLoop =>
      if Serial_available (cpu c) >? 0 then
        let (v, s) := Serial_read (cpu c) in
        let s := set_receivedByte (to_char v) s in
        mkSystem
          (exec (setLEDSequence_ldi (lightLED_arg (_receivedByte s))) s)
          AtOut
      else c
  | AtOut => mkSystem (exec (setLEDSequence_out d) (cpu c)) AtLoop
  end.

(** An edge on INT0 is served: possible when the I flag is set; the
    handler then runs to its end, the foreground resumes where it was. *)
Definition irq (d : device) (fuel : nat) (c : system) : option system :=
  if I_flag (cpu c) then
    match ISR_INT0_vect d fuel (cpu c) with
    | Some s => Some (mkSystem s (pc c))
    | None => None
    end
  else None.

Inductive action : Type :=
| Fg                  (* the foreground executes its next step *)
| Edge (fuel : nat).  (* the input pin changes and the handler runs *)

Fixpoint run (d : device) (acts : list action) (c : system) : option system :=
  match acts with
  | [] => Some c
  | Fg :: acts' => run d acts' (fg_step d c)
  | Edge fuel :: acts' =>
      match irq d fuel c with
      | Some c' => run d acts' c'
      | None => None
      end
  end.

(** What the foreground maintains on its own: the port holds one of
    the four patterns, and so does r16 between the [ldi] and the [out]. *)
Definition fg_inv (d : device) (c : system) : Prop :=
  is_pattern (port d (cpu c)) /\
  (pc c = AtOut -> is_pattern (regs (cpu c) R16)).

(** ** Reading traces *)

(** The values read from data-space address [a], oldest first. *)
Fixpoint loads_from (a : Z) (tr : list event) : list Z :=
  match tr with
  | [] => []
  | EvLoad a' v :: tr' =>
      if a' =? a then v :: loads_from a tr' else loads_from a tr'
  | _ :: tr' => loads_from a tr'
  end.

(** The events that follow the first store to address [a]. *)
Fixpoint after_store (a : Z) (tr : list event) : list event :=
  match tr with
  | [] => []
  | EvStore a' v :: tr' => if a' =? a then tr' else after_store a tr'
  | _ :: tr' => after_store a tr'
  end.

Definition is_sei (e : event) : bool :=
  match e with EvSei => true | _ => false end.

(** Among the events [evs] of a run of the handler, does a [sei] come
    after the write to UDR0? *)
Definition sei_follows_write (d : device) (evs : list event) : bool :=
  existsb is_sei (after_store (UDR0 d) evs).

(** The state the handler leaves behind when it returns (the state it
    was given when its loop is still spinning). *)
Definition after_ISR (d : device) (fuel : nat) (s : machine) : machine :=
  match ISR_INT0_vect d fuel s with
  | Some s' => s'
  | None => s
  end.

(** The events a run added to the trace. *)
Definition new_events (s s' : machine) : list event :=
  skipn (length (trace s)) (trace s').

(** The table of the specification, section 4.2, for a received byte. *)
Definition spec_pattern (b : Z) : Z :=
  if b =? 114 then RED
  else if b =? 103 then GREEN
  else if b =? 98 then BLUE
  else NONE.

(** The bit of the constant in [%1] that the handler's [sbrs] ends up
    testing when X addresses a memory cell (see [USART_Transmit]). *)
Definition spin_exits (d : device) : Prop :=
  Z.testbit (Z.land (SFR_IO_ADDR (UCSR0A d)) 0xFF) (UDRE0 d) = true.

(** ** Concrete states for the examples *)

(** A machine just after reset: registers, memory and I/O registers
    zero (in particular UDRE0 of UCSR0A reads 0: transmitter busy), the
    stack pointer at the end of SRAM, X at the first SRAM cell. *)
Definition reset_state : machine :=
  mkMachine (fun _ => 0) 0x100 0x8FF 0 (fun _ => 0) [] 0 [].

(** The same machine while a switch edge finds the transmitter busy. *)
Definition busy_state : machine := reset_state.


(** After [setup], with the byte 'r' waiting in the receive buffer. *)
Definition booted_r : system :=
  mkSystem (set_rx [114] (setup ATmega328P reset_state)) AtLoop.

(** ** Further notions *)

(** The registers [setup] writes (DDRB, DDRD, EICRA, EIMSK and, in the
    start-up test, PORTB) are pairwise distinct. *)
Definition wf_setup (d : device) : Prop :=
  DDRB d <> DDRD d /\ DDRB d <> EICRA d /\ DDRB d <> EIMSK d /\
  DDRB d <> PORTB d /\
  DDRD d <> EICRA d /\ DDRD d <> EIMSK d /\ DDRD d <> PORTB d /\
  EICRA d <> EIMSK d /\ EICRA d <> PORTB d /\ EIMSK d <> PORTB d.



(** The total time spent in [delay], in milliseconds. *)
Fixpoint delayed (tr : list event) : Z :=
  match tr with
  | [] => 0
  | EvDelay ms :: tr' => ms + delayed tr'
  | _ :: tr' => delayed tr'
  end.

(** Case analysis on the next bit of a [positive], for the [switch]
    statements on literals. *)
Ltac split_pos p :=
  destruct p as [p|p|]; try reflexivity.

(** * Properties *)

(** ** Traces and memory *)

Lemma stores_to_app (a : Z) (t1 t2 : list event) :
  stores_to a (t1 ++ t2) = stores_to a t1 ++ stores_to a t2.
Proof.
  induction t1 as [|e t1 IH]; simpl; [reflexivity|].
  destruct e; auto.
  destruct (addr =? a); simpl; now rewrite IH.
Qed.

Lemma stores_to_hit (a v : Z) : stores_to a [EvStore a v] = [v].
Proof. simpl. now rewrite Z.eqb_refl. Qed.

Lemma stores_to_miss (a a' v : Z) : a' <> a -> stores_to a [EvStore a' v] = [].
Proof. intros H. simpl. apply Z.eqb_neq in H. now rewrite H. Qed.

Lemma loads_from_app (a : Z) (t1 t2 : list event) :
  loads_from a (t1 ++ t2) = loads_from a t1 ++ loads_from a t2.
Proof.
  induction t1 as [|e t1 IH]; simpl; [reflexivity|].
  destruct e; auto.
  destruct (addr =? a); simpl; now rewrite IH.
Qed.

Lemma new_events_app (s s' : machine) (t : list event) :
  trace s' = trace s ++ t -> new_events s s' = t.
Proof.
  intros H. unfold new_events. rewrite H.
  rewrite skipn_app, skipn_all, Nat.sub_diag. reflexivity.
Qed.

Lemma io_addr_back (a : Z) : SFR_IO_ADDR a + SFR_OFFSET = a.
Proof. unfold SFR_IO_ADDR. lia. Qed.

(** ** The colour renderer, sequentially *)

Lemma setLEDSequence_ldi_eq (ledPin : Z) :
  setLEDSequence_ldi ledPin = LDI R16 (pin_pattern ledPin).
Proof.
  unfold pin_pattern.
  destruct ledPin as [|p|p]; try reflexivity.
  split_pos p; split_pos p; split_pos p.
Qed.

Lemma setLEDSequence_eq (d : device) (ledPin : Z) (s : machine) :
  setLEDSequence d ledPin s =
  store (PORTB d) (pin_pattern ledPin) (set_reg R16 (pin_pattern ledPin) s).
Proof.
  unfold setLEDSequence, setLEDSequence_out.
  rewrite setLEDSequence_ldi_eq. simpl exec.
  rewrite io_addr_back. reflexivity.
Qed.

Lemma pin_pattern_cases (ledPin : Z) :
  pin_pattern ledPin =
  if ledPin =? 1 then RED else if ledPin =? 2 then GREEN
  else if ledPin =? 3 then BLUE else NONE.
Proof.
  destruct ledPin as [|p|p]; try reflexivity.
  split_pos p; split_pos p; split_pos p.
Qed.

Lemma lightLED_eq (d : device) (code : Z) (s : machine) :
  lightLED d code s = setLEDSequence d (lightLED_arg code) s.
Proof.
  destruct code as [|p|p]; try reflexivity.
  do 8 (try split_pos p).
Qed.

Lemma lightLED_arg_cases (code : Z) :
  lightLED_arg code =
  if code =? 114 then 1 else if code =? 103 then 2
  else if code =? 98 then 3 else 0.
Proof.
  destruct code as [|p|p]; try reflexivity.
  do 8 (try split_pos p).
Qed.

(** The pattern [lightLED] ends up loading, by character code. *)
Lemma lightLED_pattern (code : Z) :
  pin_pattern (lightLED_arg code) = spec_pattern code.
Proof.
  rewrite pin_pattern_cases, lightLED_arg_cases. unfold spec_pattern.
  destruct (code =? 114); [reflexivity|].
  destruct (code =? 103); [reflexivity|].
  destruct (code =? 98); reflexivity.
Qed.

Lemma to_char_low (b : Z) : 0 <= b < 128 -> to_char b = b.
Proof. intros H. unfold to_char. rewrite Z.mod_small; lia. Qed.

Lemma to_char_high (b : Z) : 128 <= b < 256 -> to_char b = b - 256.
Proof.
  intros H. unfold to_char.
  replace (b + 128) with (b - 128 + 1 * 256) by lia.
  rewrite Z.mod_add by lia. rewrite Z.mod_small; lia.
Qed.

(** The conversion to [char] does not change which pattern a received
    byte selects. *)
Lemma spec_pattern_to_char (b : Z) :
  0 <= b < 256 -> spec_pattern (to_char b) = spec_pattern b.
Proof.
  intros H. destruct (Z.lt_ge_cases b 128) as [L|G].
  - now rewrite to_char_low by lia.
  - rewrite to_char_high by lia. unfold spec_pattern.
    repeat match goal with
           | |- context [?x =? ?y] =>
               let E := fresh in destruct (Z.eqb_spec x y) as [E|E]; try lia
           end.
Qed.

Lemma loop_cons (d : device) (s : machine) (b : Z) (q : list Z) :
  rx s = b :: q ->
  loop d s =
  setLEDSequence d (lightLED_arg (to_char b))
                 (set_receivedByte (to_char b) (set_rx q s)).
Proof.
  intros H. unfold loop, Serial_available, Serial_read. rewrite H.
  cbn [length]. rewrite Nat2Z.inj_succ.
  destruct (Z.succ (Z.of_nat (length q)) >? 0) eqn:E.
  - cbn [_receivedByte set_receivedByte]. apply lightLED_eq.
  - rewrite Z.gtb_ltb, Z.ltb_ge in E. lia.
Qed.

Lemma loop_nil (d : device) (s : machine) : rx s = [] -> loop d s = s.
Proof. intros H. unfold loop, Serial_available. now rewrite H. Qed.

Lemma loops_idle (d : device) (n : nat) (s : machine) :
  rx s = [] -> loops d n s = s.
Proof.
  intros H. induction n as [|n IH]; cbn [loops]; [reflexivity|].
  now rewrite loop_nil.
Qed.

(** One iteration of [loop] with a byte waiting: what it leaves behind. *)
Lemma loop_cons_effect (d : device) (s : machine) (b : Z) (q : list Z) :
  0 <= b < 256 -> rx s = b :: q ->
  trace (loop d s) = trace s ++ [EvStore (PORTB d) (spec_pattern b)] /\
  port d (loop d s) = spec_pattern b /\
  rx (loop d s) = q.
Proof.
  intros Hb Hrx. rewrite (loop_cons d s b q Hrx), setLEDSequence_eq.
  rewrite lightLED_pattern, spec_pattern_to_char by assumption.
  unfold port. cbn. rewrite Z.eqb_refl. auto.
Qed.

Lemma pin_pattern_is_pattern (ledPin : Z) : is_pattern (pin_pattern ledPin).
Proof.
  rewrite pin_pattern_cases. unfold is_pattern.
  destruct (ledPin =? 1); [auto|].
  destruct (ledPin =? 2); [auto|].
  destruct (ledPin =? 3); auto.
Qed.

Lemma spec_pattern_is_pattern (b : Z) : is_pattern (spec_pattern b).
Proof. rewrite <- lightLED_pattern. apply pin_pattern_is_pattern. Qed.

(** Each of the four patterns has exactly one of bits 0..3 low and
    bits 4..7 clear. *)
Lemma pattern_one_low (v : Z) :
  is_pattern v -> low_bits v = 1%nat /\ Z.land v 0xF0 = 0.
Proof. intros [H|[H|[H|H]]]; subst v; split; reflexivity. Qed.

(** C1. For every input byte b, one iteration of the foreground loop
    that reads b makes exactly one write to the output port, and the
    value written is 0x0D when b = 'r', 0x0B when b = 'g', 0x07 when
    b = 'b' and 0x0E for every other byte (so also for 'R'). *)
Theorem loop_renders_byte (d : device) (s : machine) (b : Z) (q : list Z) :
  0 <= b < 256 ->
  rx s = b :: q ->
  exists p,
    new_events s (loop d s) = [EvStore (PORTB d) p] /\
    port_writes d (loop d s) = port_writes d s ++ [p] /\
    port d (loop d s) = p /\
    is_pattern p /\
    (b = 114 -> p = 0x0D) /\
    (b = 103 -> p = 0x0B) /\
    (b = 98 -> p = 0x07) /\
    (b <> 114 -> b <> 103 -> b <> 98 -> p = 0x0E).
Proof.
  intros Hb Hrx.
  destruct (loop_cons_effect d s b q Hb Hrx) as (Htr & Hport & _).
  exists (spec_pattern b). repeat split.
  - now apply new_events_app.
  - unfold port_writes. now rewrite Htr, stores_to_app, stores_to_hit.
  - exact Hport.
  - apply spec_pattern_is_pattern.
  - intros ->. reflexivity.
  - intros ->. reflexivity.
  - intros ->. reflexivity.
  - intros H1 H2 H3. unfold spec_pattern.
    apply Z.eqb_neq in H1, H2, H3. now rewrite H1, H2, H3.
Qed.

Lemma loop_renders_byte_witness :
  (0 <= 82 < 256 /\ rx (set_rx [82] reset_state) = [82]) /\
  exists p,
    new_events (set_rx [82] reset_state)
               (loop ATmega328P (set_rx [82] reset_state))
    = [EvStore (PORTB ATmega328P) p] /\
    port_writes ATmega328P (loop ATmega328P (set_rx [82] reset_state))
    = port_writes ATmega328P (set_rx [82] reset_state) ++ [p] /\
    port ATmega328P (loop ATmega328P (set_rx [82] reset_state)) = p /\
    is_pattern p /\
    (82 = 114 -> p = 0x0D) /\
    (82 = 103 -> p = 0x0B) /\
    (82 = 98 -> p = 0x07) /\
    (82 <> 114 -> 82 <> 103 -> 82 <> 98 -> p = 0x0E).
Proof.
  split; [split; [lia | reflexivity]|].
  apply (loop_renders_byte ATmega328P (set_rx [82] reset_state) 82 []);
    [lia | reflexivity].
Defined.

(** C6. Processing an unrecognized byte is silent: the loop iteration
    that reads it does one thing only, the write of the NONE pattern
    0x0E to the port.  Nothing is transmitted, no other cell of the
    data space changes, and the interrupt flag, the stack pointer and
    X are as before. *)
Theorem unrecognized_byte_is_silent
  (d : device) (s : machine) (b : Z) (q : list Z) :
  wf_device d ->
  0 <= b < 256 ->
  rx s = b :: q ->
  b <> 114 -> b <> 103 -> b <> 98 ->
  new_events s (loop d s) = [EvStore (PORTB d) 0x0E] /\
  port d (loop d s) = 0x0E /\
  transmitted d (loop d s) = transmitted d s /\
  (forall a, a <> PORTB d -> mem (loop d s) a = mem s a) /\
  SREG (loop d s) = SREG s /\ SP (loop d s) = SP s /\ X (loop d s) = X s.
Proof.
  intros Hd Hb Hrx H1 H2 H3.
  destruct (loop_cons_effect d s b q Hb Hrx) as (Htr & Hport & _).
  assert (Hp : spec_pattern b = 0x0E).
  { unfold spec_pattern. apply Z.eqb_neq in H1, H2, H3.
    now rewrite H1, H2, H3. }
  rewrite Hp in Htr, Hport.
  split; [now apply new_events_app|]. split; [exact Hport|].
  split.
  { unfold transmitted. rewrite Htr, stores_to_app, stores_to_miss.
    - apply app_nil_r.
    - unfold wf_device in Hd. tauto. }
  rewrite (loop_cons d s b q Hrx), setLEDSequence_eq. cbn.
  repeat split; auto.
  intros a Ha. apply Z.eqb_neq in Ha. now rewrite Ha.
Qed.

Lemma unrecognized_byte_is_silent_witness :
  (wf_device ATmega328P /\ 0 <= 120 < 256 /\
   rx (set_rx [120] reset_state) = [120] /\
   120 <> 114 /\ 120 <> 103 /\ 120 <> 98) /\
  new_events (set_rx [120] reset_state)
             (loop ATmega328P (set_rx [120] reset_state))
  = [EvStore (PORTB ATmega328P) 0x0E] /\
  port ATmega328P (loop ATmega328P (set_rx [120] reset_state)) = 0x0E /\
  transmitted ATmega328P (loop ATmega328P (set_rx [120] reset_state))
  = transmitted ATmega328P (set_rx [120] reset_state) /\
  (forall a, a <> PORTB ATmega328P ->
             mem (loop ATmega328P (set_rx [120] reset_state)) a
             = mem (set_rx [120] reset_state) a) /\
  SREG (loop ATmega328P (set_rx [120] reset_state))
  = SREG (set_rx [120] reset_state) /\
  SP (loop ATmega328P (set_rx [120] reset_state))
  = SP (set_rx [120] reset_state) /\
  X (loop ATmega328P (set_rx [120] reset_state))
  = X (set_rx [120] reset_state).
Proof.
  split.
  { unfold wf_device, SFR_OFFSET. simpl. repeat split; lia. }
  apply (unrecognized_byte_is_silent ATmega328P (set_rx [120] reset_state)
                                     120 []).
  - unfold wf_device, SFR_OFFSET. simpl. lia.
  - lia.
  - reflexivity.
  - lia.
  - lia.
  - lia.
Defined.

(** Rendering a byte from an arbitrary state: the events added. *)
Lemma loop_set_rx_events (d : device) (s : machine) (b : Z) (q : list Z) :
  0 <= b < 256 ->
  new_events (set_rx (b :: q) s) (loop d (set_rx (b :: q) s))
  = [EvStore (PORTB d) (spec_pattern b)] /\
  port d (loop d (set_rx (b :: q) s)) = spec_pattern b /\
  rx (loop d (set_rx (b :: q) s)) = q.
Proof.
  intros Hb.
  destruct (loop_cons_effect d (set_rx (b :: q) s) b q Hb eq_refl)
    as (Htr & Hport & Hrx).
  split; [now apply new_events_app | auto].
Qed.

(** C7. Rendering is stateless: the pattern written for a byte b is
    the same from every machine state (whatever was received before,
    whatever the global [_receivedByte], r16 and the port hold), and
    rendering b twice in succession writes the same pattern twice. *)
Theorem render_is_stateless (d : device) (b : Z) :
  0 <= b < 256 ->
  exists p,
    (forall s q,
        new_events (set_rx (b :: q) s) (loop d (set_rx (b :: q) s))
        = [EvStore (PORTB d) p] /\
        port d (loop d (set_rx (b :: q) s)) = p) /\
    (forall s q,
        new_events (set_rx (b :: b :: q) s)
                   (loop d (loop d (set_rx (b :: b :: q) s)))
        = [EvStore (PORTB d) p; EvStore (PORTB d) p] /\
        port d (loop d (loop d (set_rx (b :: b :: q) s))) = p).
Proof.
  intros Hb. exists (spec_pattern b). split.
  - intros s q. destruct (loop_set_rx_events d s b q Hb) as (H1 & H2 & _).
    auto.
  - intros s q.
    destruct (loop_cons_effect d (set_rx (b :: b :: q) s) b (b :: q) Hb
                               eq_refl) as (Htr1 & _ & Hrx1).
    destruct (loop_cons_effect d (loop d (set_rx (b :: b :: q) s)) b q Hb
                               Hrx1) as (Htr2 & Hport2 & _).
    split; [|exact Hport2].
    apply new_events_app. rewrite Htr2, Htr1, <- app_assoc. reflexivity.
Qed.

Lemma render_is_stateless_witness :
  0 <= 103 < 256 /\
  exists p,
    (forall s q,
        new_events (set_rx (103 :: q) s)
                   (loop ATmega328P (set_rx (103 :: q) s))
        = [EvStore (PORTB ATmega328P) p] /\
        port ATmega328P (loop ATmega328P (set_rx (103 :: q) s)) = p) /\
    (forall s q,
        new_events (set_rx (103 :: 103 :: q) s)
                   (loop ATmega328P
                         (loop ATmega328P (set_rx (103 :: 103 :: q) s)))
        = [EvStore (PORTB ATmega328P) p; EvStore (PORTB ATmega328P) p] /\
        port ATmega328P
             (loop ATmega328P
                   (loop ATmega328P (set_rx (103 :: 103 :: q) s))) = p).
Proof.
  split; [lia|]. apply (render_is_stateless ATmega328P 103). lia.
Defined.

(** Draining the receive buffer: one port write per byte, in order,
    and further iterations change nothing. *)
Lemma loops_drain (d : device) (bs : list Z) :
  Forall (fun b => 0 <= b < 256) bs ->
  forall (s : machine) (n : nat),
    rx s = bs ->
    trace (loops d (length bs + n) s)
    = trace s ++ map (fun b => EvStore (PORTB d) (spec_pattern b)) bs /\
    rx (loops d (length bs + n) s) = [].
Proof.
  induction 1 as [|b bs Hb Hbs IH]; intros s n Hrx.
  - cbn [length Nat.add map]. rewrite app_nil_r.
    now rewrite loops_idle.
  - cbn [length Nat.add loops map].
    destruct (loop_cons_effect d s b bs Hb Hrx) as (Htr & _ & Hrx').
    destruct (IH (loop d s) n Hrx') as (Htr2 & Hrx2).
    split; [|exact Hrx2].
    rewrite Htr2, Htr, <- app_assoc. reflexivity.
Qed.

(** C8. End to end over the foreground loop: with the bytes ['r']
    received, the loop writes the port sequence [RED]; with
    ['g','b','x'] it writes [GREEN, BLUE, NONE]; one write per byte, in
    the order received, however long the loop keeps running. *)
Theorem end_to_end_scenarios (d : device) (s : machine) (n : nat) :
  (new_events (set_rx [114] s) (loops d (1 + n) (set_rx [114] s))
   = [EvStore (PORTB d) RED] /\
   port_writes d (loops d (1 + n) (set_rx [114] s))
   = port_writes d s ++ [RED]) /\
  (new_events (set_rx [103; 98; 120] s)
              (loops d (3 + n) (set_rx [103; 98; 120] s))
   = [EvStore (PORTB d) GREEN; EvStore (PORTB d) BLUE;
      EvStore (PORTB d) NONE] /\
   port_writes d (loops d (3 + n) (set_rx [103; 98; 120] s))
   = port_writes d s ++ [GREEN; BLUE; NONE]).
Proof.
  split.
  - assert (F : Forall (fun b => 0 <= b < 256) [114])
      by (repeat constructor; lia).
    destruct (loops_drain d [114] F (set_rx [114] s) n eq_refl) as (Htr & _).
    cbn [length] in Htr. split; [now apply new_events_app|].
    unfold port_writes. rewrite Htr, stores_to_app.
    cbn. now rewrite Z.eqb_refl.
  - assert (F : Forall (fun b => 0 <= b < 256) [103; 98; 120])
      by (repeat constructor; lia).
    destruct (loops_drain d [103; 98; 120] F (set_rx [103; 98; 120] s) n
                          eq_refl) as (Htr & _).
    cbn [length] in Htr. split; [now apply new_events_app|].
    unfold port_writes. rewrite Htr, stores_to_app.
    cbn. now rewrite Z.eqb_refl.
Qed.

Lemma port_after_setLEDSequence (d : device) (ledPin : Z) (s : machine) :
  port d (setLEDSequence d ledPin s) = pin_pattern ledPin.
Proof.
  rewrite setLEDSequence_eq. unfold port, store. cbn [mem].
  now rewrite Z.eqb_refl.
Qed.

Lemma port_log (d : device) (e : event) (s : machine) :
  port d (log e s) = port d s.
Proof. reflexivity. Qed.

(** The last two things [setup] does. *)
Lemma setup_ends_with_NONE (d : device) (s : machine) :
  exists s', setup d s = Serial_begin 9600 (setLEDSequence d 0 s').
Proof. eexists. cbv beta zeta delta [setup ledTest]. reflexivity. Qed.

(** What [setup] does, in order. *)
Lemma setup_trace (d : device) (s : machine) :
  exists v1 w2 v2 w3 v3,
    trace (setup d s)
    = trace s ++
      [EvStore (DDRB d) 0x0f; EvStore (DDRD d) v1;
       EvLoad (EICRA d) w2; EvStore (EICRA d) v2;
       EvLoad (EIMSK d) w3; EvStore (EIMSK d) v3; EvSei;
       EvDelay 1000; EvStore (PORTB d) RED;
       EvDelay 1000; EvStore (PORTB d) GREEN;
       EvDelay 1000; EvStore (PORTB d) BLUE;
       EvDelay 1000; EvStore (PORTB d) NONE;
       EvSerialBegin 9600].
Proof.
  unfold setup, ledTest, or_assign. rewrite !setLEDSequence_eq.
  cbn -[Z.clearbit Z.lor Z.setbit]. rewrite !io_addr_back.
  repeat rewrite <- app_assoc. cbn [app].
  do 5 eexists. reflexivity.
Qed.

Lemma exec_rx (i : instr) (s : machine) : rx (exec i s) = rx s.
Proof. destruct i; reflexivity. Qed.

Lemma setLEDSequence_rx (d : device) (ledPin : Z) (s : machine) :
  rx (setLEDSequence d ledPin s) = rx s.
Proof. unfold setLEDSequence. now rewrite !exec_rx. Qed.

Lemma store_rx (a v : Z) (s : machine) : rx (store a v s) = rx s.
Proof. reflexivity. Qed.

Lemma log_rx (e : event) (s : machine) : rx (log e s) = rx s.
Proof. reflexivity. Qed.

Lemma setup_rx (d : device) (s : machine) : rx (setup d s) = rx s.
Proof.
  cbv beta zeta delta [setup ledTest Serial_begin delay or_assign].
  now rewrite ?log_rx, ?setLEDSequence_rx, ?store_rx, ?exec_rx.
Qed.

(** C9. When [setup] returns, the port holds the NONE pattern 0x0E,
    the last value the self-test wrote; and with no byte received (and
    no edge served) it still holds NONE after any number of iterations
    of the foreground loop. *)
Theorem port_is_NONE_after_setup (d : device) (s : machine) (n : nat) :
  port d (setup d s) = 0x0E /\
  last (port_writes d (setup d s)) 0 = 0x0E /\
  port d (loops d n (setup d (set_rx [] s))) = 0x0E.
Proof.
  assert (P : forall s0, port d (setup d s0) = 0x0E).
  { intros s0. destruct (setup_ends_with_NONE d s0) as [s' ->].
    unfold Serial_begin. rewrite port_log.
    apply port_after_setLEDSequence. }
  split; [apply P|]. split.
  - destruct (setup_trace d s) as (v1 & w2 & v2 & w3 & v3 & Htr).
    unfold port_writes. rewrite Htr.
    change [EvStore (DDRB d) 15; EvStore (DDRD d) v1;
            EvLoad (EICRA d) w2; EvStore (EICRA d) v2;
            EvLoad (EIMSK d) w3; EvStore (EIMSK d) v3; EvSei; EvDelay 1000;
            EvStore (PORTB d) RED; EvDelay 1000; EvStore (PORTB d) GREEN;
            EvDelay 1000; EvStore (PORTB d) BLUE; EvDelay 1000;
            EvStore (PORTB d) NONE; EvSerialBegin 9600]
      with ([EvStore (DDRB d) 15; EvStore (DDRD d) v1;
             EvLoad (EICRA d) w2; EvStore (EICRA d) v2;
             EvLoad (EIMSK d) w3; EvStore (EIMSK d) v3; EvSei; EvDelay 1000;
             EvStore (PORTB d) RED; EvDelay 1000; EvStore (PORTB d) GREEN;
             EvDelay 1000; EvStore (PORTB d) BLUE; EvDelay 1000]
              ++ [EvStore (PORTB d) NONE] ++ [EvSerialBegin 9600]).
    rewrite !stores_to_app, stores_to_hit. cbn [stores_to].
    rewrite app_nil_r, !app_assoc. apply last_last.
  - rewrite loops_idle; [apply P|].
    rewrite setup_rx. reflexivity.
Qed.

(** C10. Every call of [setLEDSequence] replaces the whole byte of
    PORTB: the port then holds exactly the pattern loaded by the
    [switch], whatever it held before, and bits 4..7 are 0. *)
Theorem setLEDSequence_writes_whole_port
  (d : device) (ledPin : Z) (s : machine) :
  new_events s (setLEDSequence d ledPin s)
  = [EvStore (PORTB d) (pin_pattern ledPin)] /\
  port d (setLEDSequence d ledPin s) = pin_pattern ledPin /\
  is_pattern (pin_pattern ledPin) /\
  Z.land (port d (setLEDSequence d ledPin s)) 0xF0 = 0 /\
  Z.shiftr (port d (setLEDSequence d ledPin s)) 4 = 0.
Proof.
  assert (P : port d (setLEDSequence d ledPin s) = pin_pattern ledPin)
    by apply port_after_setLEDSequence.
  split.
  { apply new_events_app. rewrite setLEDSequence_eq. reflexivity. }
  split; [exact P|]. split; [apply pin_pattern_is_pattern|].
  rewrite P.
  destruct (pin_pattern_is_pattern ledPin) as [H|[H|[H|H]]];
    rewrite H; split; reflexivity.
Qed.

(** For instance a port that reads 0xFF before the call reads 0x0D,
    not 0xFD, after [setLEDSequence(1)]. *)
Example setLEDSequence_clears_high_bits :
  port ATmega328P (store (PORTB ATmega328P) 0xFF reset_state) = 0xFF /\
  port ATmega328P
       (setLEDSequence ATmega328P 1
                       (store (PORTB ATmega328P) 0xFF reset_state)) = 0x0D.
Proof. split; reflexivity. Qed.

(** ** The handler *)

(** One pass through the body of the spin loop: the store through X is
    read straight back, so r16 receives the content of [%1]. *)
Lemma spin_pass (s : machine) :
  exec (LD_X R16) (exec (ST_X Op1) s)
  = mkMachine (fun r' => if reg_eqb r' R16 then regs s Op1 else regs s r')
              (X s) (SP s) (SREG s)
              (fun a' => if a' =? X s then regs s Op1 else mem s a')
              (rx s) (_receivedByte s)
              ((trace s ++ [EvStore (X s) (regs s Op1)])
                 ++ [EvLoad (X s) (regs s Op1)]).
Proof.
  cbn [exec]. unfold load, store, log, set_reg.
  cbn [regs X SP SREG mem rx _receivedByte trace].
  rewrite Z.eqb_refl. reflexivity.
Qed.

Lemma USART_Transmit_step (d : device) (fuel : nat) (s : machine) :
  USART_Transmit d (S fuel) s
  = if Z.testbit (regs s Op1) (UDRE0 d)
    then Some (exec (LD_X R16) (exec (ST_X Op1) s))
    else USART_Transmit d fuel (exec (LD_X R16) (exec (ST_X Op1) s)).
Proof.
  cbn [USART_Transmit]. rewrite spin_pass. reflexivity.
Qed.

(** The loop has no exit but the tested bit: when that bit of [%1] is
    clear it spins for ever, whatever the fuel. *)
Lemma USART_Transmit_spins (d : device) (fuel : nat) :
  forall s, Z.testbit (regs s Op1) (UDRE0 d) = false ->
            USART_Transmit d fuel s = None.
Proof.
  induction fuel as [|fuel IH]; intros s H; [reflexivity|].
  rewrite USART_Transmit_step, H. apply IH.
  rewrite spin_pass. exact H.
Qed.

(** When the loop exits, it does so after its first pass. *)
Lemma USART_Transmit_some (d : device) (fuel : nat) (s s' : machine) :
  USART_Transmit d fuel s = Some s' ->
  Z.testbit (regs s Op1) (UDRE0 d) = true /\
  s' = exec (LD_X R16) (exec (ST_X Op1) s).
Proof.
  destruct fuel as [|fuel]; [discriminate|].
  rewrite USART_Transmit_step.
  destruct (Z.testbit (regs s Op1) (UDRE0 d)) eqn:E.
  - intros [= <-]. auto.
  - rewrite USART_Transmit_spins; [discriminate|].
    rewrite spin_pass. exact E.
Qed.


Lemma ISR_prologue (d : device) (s : machine) :
  exec (PUSH Op0) (exec CLI (ISR_operands d s))
  = mkMachine
      (fun r' => if reg_eqb r' Op1 then Z.land (SFR_IO_ADDR (UCSR0A d)) 0xFF
                 else if reg_eqb r' Op0 then SREG s else regs s r')
      (X s) (SP s - 1) (Z.clearbit (SREG s) 7)
      (fun a' => if a' =? SP s then SREG s else mem s a')
      (rx s) (_receivedByte s)
      ((trace s ++ [EvCli]) ++ [EvStore (SP s) (SREG s)]).
Proof. reflexivity. Qed.

Lemma ISR_epilogue (d : device) (s : machine) :
  exec (STS (UDR0 d) R17)
       (exec SEI (exec (POP Op0) (exec (LDI R17 0x43) s)))
  = mkMachine
      (fun r' => if reg_eqb r' Op0 then mem s (SP s + 1)
                 else if reg_eqb r' R17 then 0x43 else regs s r')
      (X s) (SP s + 1) (Z.setbit (SREG s) 7)
      (fun a' => if a' =? UDR0 d then 0x43 else mem s a')
      (rx s) (_receivedByte s)
      (((trace s ++ [EvLoad (SP s + 1) (mem s (SP s + 1))]) ++ [EvSei])
         ++ [EvStore (UDR0 d) 0x43]).
Proof. reflexivity. Qed.

Lemma ISR_INT0_vect_some (d : device) (fuel : nat) (s s' : machine) :
  ISR_INT0_vect d fuel s = Some s' ->
  exists w,
    trace s'
    = trace s ++
      [EvCli; EvStore (SP s) (SREG s);
       EvStore (X s) (Z.land (SFR_IO_ADDR (UCSR0A d)) 0xFF);
       EvLoad (X s) (Z.land (SFR_IO_ADDR (UCSR0A d)) 0xFF);
       EvLoad (SP s) w; EvSei; EvStore (UDR0 d) 0x43] /\
    regs s' R16 = Z.land (SFR_IO_ADDR (UCSR0A d)) 0xFF /\
    regs s' R17 = 0x43 /\
    I_flag s' = true /\
    SP s' = SP s /\ X s' = X s /\ rx s' = rx s /\
    spin_exits d.
Proof.
  unfold ISR_INT0_vect. rewrite ISR_prologue.
  match goal with
  | |- match USART_Transmit d fuel ?p with _ => _ end = _ -> _ =>
      destruct (USART_Transmit d fuel p) as [s1|] eqn:E; [|discriminate]
  end.
  apply USART_Transmit_some in E. destruct E as (Hbit & Hs1).
  rewrite spin_pass in Hs1.
  cbn [regs X SP SREG mem rx _receivedByte trace reg_eqb] in Hs1, Hbit.
  rewrite ISR_epilogue. intros H. apply (f_equal (fun o => match o with Some x => x | None => s end)) in H.
  rewrite <- H, Hs1. clear H Hs1.
  cbn [regs X SP SREG mem rx _receivedByte trace reg_eqb].
  replace (SP s - 1 + 1) with (SP s) by lia.
  eexists. repeat rewrite <- app_assoc. cbn [app].
  split; [reflexivity|]. repeat split; try reflexivity.
  - unfold I_flag. cbn [SREG]. apply Z.setbit_eq. lia.
  - exact Hbit.
Qed.

(** The handler returns as soon as it has fuel for one pass, provided
    the tested bit of the constant is set. *)
Lemma ISR_INT0_vect_returns (d : device) (fuel : nat) (s : machine) :
  spin_exits d -> exists s', ISR_INT0_vect d (S fuel) s = Some s'.
Proof.
  intros H. unfold ISR_INT0_vect. rewrite ISR_prologue, USART_Transmit_step.
  cbn [regs reg_eqb]. unfold spin_exits in H. rewrite H.
  eexists. reflexivity.
Qed.

(** ... and otherwise never, however much fuel it is given. *)
Lemma ISR_INT0_vect_hangs (d : device) (fuel : nat) (s : machine) :
  ~ spin_exits d -> ISR_INT0_vect d fuel s = None.
Proof.
  intros H. destruct (ISR_INT0_vect d fuel s) as [s'|] eqn:E; [|reflexivity].
  apply ISR_INT0_vect_some in E. destruct E as (w & E). tauto.
Qed.

(** Where the handler returns ([spin_exits], true of the ATmega328P)
    and X and the stack pointer address SRAM, one run of the handler
    makes exactly one store to UDR0, of the byte 0x43 ('C').  Whether
    the transmitter takes that byte, and what happens for other X, is
    the subject of [handler_byte_lost_or_stray]. *)
Theorem handler_transmits_one_C (d : device) (fuel : nat) (s : machine) :
  wf_device d ->
  spin_exits d ->
  in_sram d (X s) ->
  in_sram d (SP s) ->
  exists s',
    ISR_INT0_vect d (S fuel) s = Some s' /\
    transmitted d s' = transmitted d s ++ [0x43] /\
    stores_to (UDR0 d) (new_events s s') = [0x43].
Proof.
  intros Hd Hx HX HSP.
  destruct (ISR_INT0_vect_returns d fuel s Hx) as [s' Hs'].
  exists s'. split; [exact Hs'|].
  destruct (ISR_INT0_vect_some d (S fuel) s s' Hs') as (w & Htr & _).
  assert (N1 : (SP s =? UDR0 d) = false).
  { apply Z.eqb_neq. unfold wf_device, in_sram in *. lia. }
  assert (N2 : (X s =? UDR0 d) = false).
  { apply Z.eqb_neq. unfold wf_device, in_sram in *. lia. }
  assert (S7 : forall w0,
             stores_to (UDR0 d)
               [EvCli; EvStore (SP s) (SREG s);
                EvStore (X s) (Z.land (SFR_IO_ADDR (UCSR0A d)) 0xFF);
                EvLoad (X s) (Z.land (SFR_IO_ADDR (UCSR0A d)) 0xFF);
                EvLoad (SP s) w0; EvSei; EvStore (UDR0 d) 0x43] = [0x43]).
  { intros w0. cbn [stores_to]. now rewrite N1, N2, Z.eqb_refl. }
  split.
  - unfold transmitted. now rewrite Htr, stores_to_app, S7.
  - rewrite (new_events_app s s' _ Htr). apply S7.
Qed.

Lemma handler_transmits_one_C_witness :
  (wf_device ATmega328P /\ spin_exits ATmega328P /\
   in_sram ATmega328P (X reset_state) /\
   in_sram ATmega328P (SP reset_state)) /\
  exists s',
    ISR_INT0_vect ATmega328P 1 reset_state = Some s' /\
    transmitted ATmega328P s' = transmitted ATmega328P reset_state ++ [0x43] /\
    stores_to (UDR0 ATmega328P) (new_events reset_state s') = [0x43].
Proof.
  split.
  { unfold wf_device, spin_exits, in_sram, SFR_OFFSET. simpl.
    repeat split; lia. }
  apply (handler_transmits_one_C ATmega328P 0 reset_state).
  - unfold wf_device, SFR_OFFSET. simpl. lia.
  - reflexivity.
  - unfold in_sram. simpl. lia.
  - unfold in_sram. simpl. lia.
Defined.


(** C4, as stated, fails: on the ATmega328P, from the reset state, the
    handler returns, and its [sei] is not after the write of 0x43 to
    UDR0 (address 0xC6) but just before it; the I flag is set when the
    byte is written. *)
Lemma handler_sei_precedes_write :
  option_map (fun s' => (new_events reset_state s',
                         sei_follows_write ATmega328P
                                           (new_events reset_state s')))
             (ISR_INT0_vect ATmega328P 1 reset_state)
  = Some ([EvCli; EvStore 0x8FF 0; EvStore 0x100 0xA0; EvLoad 0x100 0xA0;
           EvLoad 0x8FF 0; EvSei; EvStore 0xC6 0x43],
          false).
Proof. vm_compute. reflexivity. Qed.

(** C4, amended.  Whenever the handler returns, what it did is: [cli]
    first; then, with no [sei] in between, the push, the spin loop and
    the pop; then [sei]; and last of all the write of 0x43 to UDR0.
    The interrupts are enabled again before the byte is written. *)
Theorem handler_reenables_then_writes
  (d : device) (fuel : nat) (s s' : machine) :
  ISR_INT0_vect d fuel s = Some s' ->
  exists mid,
    new_events s s' = EvCli :: mid ++ [EvSei; EvStore (UDR0 d) 0x43] /\
    existsb is_sei mid = false /\
    I_flag s' = true.
Proof.
  intros H. destruct (ISR_INT0_vect_some d fuel s s' H)
    as (w & Htr & _ & _ & HI & _).
  exists [EvStore (SP s) (SREG s);
          EvStore (X s) (Z.land (SFR_IO_ADDR (UCSR0A d)) 0xFF);
          EvLoad (X s) (Z.land (SFR_IO_ADDR (UCSR0A d)) 0xFF);
          EvLoad (SP s) w].
  rewrite (new_events_app s s' _ Htr).
  split; [reflexivity|]. split; [reflexivity | exact HI].
Qed.

Lemma handler_reenables_then_writes_witness :
  ISR_INT0_vect ATmega328P 1 reset_state
  = Some (after_ISR ATmega328P 1 reset_state) /\
  exists mid,
    new_events reset_state (after_ISR ATmega328P 1 reset_state)
    = EvCli :: mid ++ [EvSei; EvStore (UDR0 ATmega328P) 0x43] /\
    existsb is_sei mid = false /\
    I_flag (after_ISR ATmega328P 1 reset_state) = true.
Proof.
  assert (H : ISR_INT0_vect ATmega328P 1 reset_state
              = Some (after_ISR ATmega328P 1 reset_state))
    by (vm_compute; reflexivity).
  split; [exact H|].
  exact (handler_reenables_then_writes ATmega328P 1 reset_state _ H).
Defined.

(** With X and the stack pointer in SRAM, the handler never reads the
    status register UCSR0A: the only loads are from the cell X points
    to and from the stack. *)
Lemma handler_never_reads_UCSR0A (d : device) (fuel : nat) (s s' : machine) :
  wf_device d ->
  in_sram d (X s) ->
  in_sram d (SP s) ->
  ISR_INT0_vect d fuel s = Some s' ->
  loads_from (UCSR0A d) (new_events s s') = [].
Proof.
  intros Hd HX HSP H.
  destruct (ISR_INT0_vect_some d fuel s s' H) as (w & Htr & _).
  rewrite (new_events_app s s' _ Htr). cbn [loads_from].
  assert (N1 : (SP s =? UCSR0A d) = false).
  { apply Z.eqb_neq. unfold wf_device, in_sram in *. lia. }
  assert (N2 : (X s =? UCSR0A d) = false).
  { apply Z.eqb_neq. unfold wf_device, in_sram in *. lia. }
  now rewrite N1, N2.
Qed.

(** Nor does it depend on that register whether the handler returns:
    the same holds on a machine that differs in the data space only,
    for instance in UDRE0 of UCSR0A. *)
Lemma handler_outcome_ignores_memory
  (d : device) (fuel : nat) (s : machine) (m : Z -> Z) :
  let s2 := mkMachine (regs s) (X s) (SP s) (SREG s) m (rx s)
                      (_receivedByte s) (trace s) in
  (ISR_INT0_vect d fuel s = None <-> ISR_INT0_vect d fuel s2 = None).
Proof.
  intros s2. destruct fuel as [|fuel]; [split; reflexivity|].
  destruct (Z.testbit (Z.land (SFR_IO_ADDR (UCSR0A d)) 0xFF) (UDRE0 d))
    eqn:E.
  - destruct (ISR_INT0_vect_returns d fuel s E) as [s' ->].
    destruct (ISR_INT0_vect_returns d fuel s2 E) as [s2' ->].
    split; discriminate.
  - assert (N : ~ spin_exits d) by (unfold spin_exits; congruence).
    rewrite !ISR_INT0_vect_hangs by exact N. split; reflexivity.
Qed.

(** C5.  The transmitter is busy (UDRE0 of UCSR0A, address 0xC0, reads
    0) and stays so; an edge is served on the ATmega328P.  The handler
    stores the constant 0xA0 = _SFR_IO_ADDR(UCSR0A) through X, reads
    it back into r16, finds bit 5 of 0xA0 set and leaves the loop at
    once: it never loads from UCSR0A, and writes 0x43 to UDR0 all the
    same. *)
Theorem handler_writes_while_transmitter_busy :
  Z.testbit (mem busy_state (UCSR0A ATmega328P)) (UDRE0 ATmega328P) = false /\
  option_map
    (fun s' => (new_events busy_state s',
                loads_from (UCSR0A ATmega328P) (new_events busy_state s'),
                Z.testbit (mem s' (UCSR0A ATmega328P)) (UDRE0 ATmega328P),
                transmitted ATmega328P s'))
    (ISR_INT0_vect ATmega328P 1 busy_state)
  = Some ([EvCli; EvStore 0x8FF 0; EvStore 0x100 0xA0; EvLoad 0x100 0xA0;
           EvLoad 0x8FF 0; EvSei; EvStore 0xC6 0x43],
          [], false, [0x43]).
Proof. split; vm_compute; reflexivity. Qed.


(** ** Foreground and handler interleaved *)


Lemma pattern_high_bits (v i : Z) : is_pattern v -> 4 <= i -> Z.testbit v i = false.
Proof.
  intros H Hi. apply Z.bits_above_log2.
  - destruct H as [H|[H|[H|H]]]; subst v; unfold RED, GREEN, BLUE, NONE; lia.
  - destruct H as [H|[H|[H|H]]]; subst v; cbn; lia.
Qed.

(** Left to itself, the foreground only ever shows the four patterns. *)
Lemma fg_step_inv (d : device) (c : system) :
  fg_inv d c -> fg_inv d (fg_step d c).
Proof.
  intros [Hport Hreg]. unfold fg_step.
  destruct (pc c) eqn:Hpc.
  - destruct (Serial_available (cpu c) >? 0).
    + unfold Serial_read. destruct (rx (cpu c)) as [|b q];
        cbn [_receivedByte set_receivedByte];
        rewrite setLEDSequence_ldi_eq; (split;
          [exact Hport | intros _; apply pin_pattern_is_pattern]).
    + split; [exact Hport | congruence].
  - split; [|discriminate].
    cbn [cpu]. unfold setLEDSequence_out, port. cbn [exec].
    rewrite io_addr_back. unfold store. cbn [mem].
    rewrite Z.eqb_refl. now apply Hreg.
Qed.

Lemma run_foreground_inv (d : device) (n : nat) :
  forall c, fg_inv d c ->
            exists c', run d (repeat Fg n) c = Some c' /\ fg_inv d c'.
Proof.
  induction n as [|n IH]; intros c H; cbn [repeat run].
  - eauto.
  - apply IH, fg_step_inv, H.
Qed.

(** The handler returns with the tested bit set in r16: it neither
    saves nor restores that register. *)
Lemma handler_leaves_r16 (d : device) (fuel : nat) (s s' : machine) :
  ISR_INT0_vect d fuel s = Some s' ->
  Z.testbit (regs s' R16) (UDRE0 d) = true.
Proof.
  intros H. destruct (ISR_INT0_vect_some d fuel s s' H)
    as (w & _ & H16 & _ & _ & _ & _ & _ & Hx).
  rewrite H16. exact Hx.
Qed.

(** So an edge served between the [ldi] and the [out] of
    [setLEDSequence] makes the [out] write something else than a
    pattern, whenever UDRE0 is one of the bits 4..7. *)
Lemma interrupted_out_no_pattern (d : device) (fuel : nat) (c c' : system) :
  4 <= UDRE0 d ->
  pc c = AtOut ->
  irq d fuel c = Some c' ->
  ~ is_pattern (port d (cpu (fg_step d c'))).
Proof.
  intros Hbit Hpc Hirq. unfold irq in Hirq.
  destruct (I_flag (cpu c)); [|discriminate].
  destruct (ISR_INT0_vect d fuel (cpu c)) as [s'|] eqn:E; [|discriminate].
  injection Hirq as <-. apply handler_leaves_r16 in E.
  unfold fg_step. cbn [pc cpu]. rewrite Hpc. cbn [cpu].
  unfold setLEDSequence_out, port. cbn [exec].
  rewrite io_addr_back. unfold store. cbn [mem]. rewrite Z.eqb_refl.
  intros P. rewrite (pattern_high_bits _ _ P Hbit) in E. discriminate.
Qed.

(** C3.  On the ATmega328P after [setup], with 'r' received: the
    foreground reaches the [ldi r16, 0x0d] of [setLEDSequence], an edge
    is served, and the foreground's [out] then writes 0xA0 to the port,
    which lights all four LEDs and is none of the four patterns.
    Without the edge the same two foreground steps write 0x0D. *)
Theorem edge_inside_setLEDSequence :
  option_map
    (fun c => (pc c, port ATmega328P (cpu c),
               low_bits (port ATmega328P (cpu c)),
               port_writes ATmega328P (cpu c)))
    (run ATmega328P [Fg; Edge 1; Fg] booted_r)
  = Some (AtLoop, 0xA0, 4%nat, [0x0D; 0x0B; 0x07; 0x0E; 0xA0]) /\
  ~ is_pattern 0xA0 /\
  option_map
    (fun c => (pc c, port ATmega328P (cpu c),
               low_bits (port ATmega328P (cpu c)),
               port_writes ATmega328P (cpu c)))
    (run ATmega328P [Fg; Fg] booted_r)
  = Some (AtLoop, 0x0D, 1%nat, [0x0D; 0x0B; 0x07; 0x0E; 0x0D]).
Proof.
  split; [vm_compute; reflexivity|]. split; [|vm_compute; reflexivity].
  unfold is_pattern, RED, GREEN, BLUE, NONE. lia.
Qed.

(** * Further properties *)

(** ** Field by field *)


Lemma trace_store (a v : Z) (s : machine) :
  trace (store a v s) = trace s ++ [EvStore a v].
Proof. reflexivity. Qed.

Lemma setLEDSequence_mem (d : device) (ledPin a : Z) (s : machine) :
  mem (setLEDSequence d ledPin s) a
  = if a =? PORTB d then pin_pattern ledPin else mem s a.
Proof. rewrite setLEDSequence_eq. reflexivity. Qed.

Lemma setLEDSequence_trace (d : device) (ledPin : Z) (s : machine) :
  trace (setLEDSequence d ledPin s)
  = trace s ++ [EvStore (PORTB d) (pin_pattern ledPin)].
Proof. rewrite setLEDSequence_eq. reflexivity. Qed.

Lemma setLEDSequence_regs (d : device) (ledPin : Z) (s : machine) (r : reg) :
  regs (setLEDSequence d ledPin s) r
  = if reg_eqb r R16 then pin_pattern ledPin else regs s r.
Proof. rewrite setLEDSequence_eq. reflexivity. Qed.

Lemma setLEDSequence_rest (d : device) (ledPin : Z) (s : machine) :
  SREG (setLEDSequence d ledPin s) = SREG s /\
  SP (setLEDSequence d ledPin s) = SP s /\
  X (setLEDSequence d ledPin s) = X s /\
  rx (setLEDSequence d ledPin s) = rx s /\
  _receivedByte (setLEDSequence d ledPin s) = _receivedByte s.
Proof. rewrite setLEDSequence_eq. repeat split; reflexivity. Qed.

(** ** [setLEDSequence] *)

(** X1. [setLEDSequence] shows RED (0x0d) for 1, GREEN (0x0b) for 2,
    BLUE (0x07) for 3 and NONE (0x0e) for every other [int]: 0, the
    negative ones, the large ones.  The same value is left in r16. *)
Theorem setLEDSequence_mapping (d : device) (ledPin : Z) (s : machine) :
  port d (setLEDSequence d ledPin s)
  = (if ledPin =? 1 then 0x0d else if ledPin =? 2 then 0x0b
     else if ledPin =? 3 then 0x07 else 0x0e) /\
  regs (setLEDSequence d ledPin s) R16 = port d (setLEDSequence d ledPin s).
Proof.
  rewrite port_after_setLEDSequence, setLEDSequence_regs.
  split; [apply pin_pattern_cases | reflexivity].
Qed.

(** X2. What [setLEDSequence] leaves alone: every cell of the data
    space but PORTB, every register but r16, the status register, the
    stack pointer, X, the receive buffer and [_receivedByte]; and it
    hands nothing to the serial transmitter. *)
Theorem setLEDSequence_frame (d : device) (ledPin : Z) (s : machine) :
  PORTB d <> UDR0 d ->
  (forall a, a <> PORTB d -> mem (setLEDSequence d ledPin s) a = mem s a) /\
  (forall r, r <> R16 -> regs (setLEDSequence d ledPin s) r = regs s r) /\
  SREG (setLEDSequence d ledPin s) = SREG s /\
  SP (setLEDSequence d ledPin s) = SP s /\
  X (setLEDSequence d ledPin s) = X s /\
  rx (setLEDSequence d ledPin s) = rx s /\
  _receivedByte (setLEDSequence d ledPin s) = _receivedByte s /\
  transmitted d (setLEDSequence d ledPin s) = transmitted d s.
Proof.
  intros Hd. split.
  { intros a Ha. rewrite setLEDSequence_mem.
    apply Z.eqb_neq in Ha. now rewrite Ha. }
  split.
  { intros r Hr. rewrite setLEDSequence_regs.
    destruct r; try reflexivity. contradiction. }
  destruct (setLEDSequence_rest d ledPin s) as (H1 & H2 & H3 & H4 & H5).
  repeat (split; [assumption|]).
  unfold transmitted. rewrite setLEDSequence_trace, stores_to_app.
  rewrite stores_to_miss by exact Hd. apply app_nil_r.
Qed.

Lemma setLEDSequence_frame_witness :
  PORTB ATmega328P <> UDR0 ATmega328P /\
  ((forall a, a <> PORTB ATmega328P ->
              mem (setLEDSequence ATmega328P (-5) reset_state) a
              = mem reset_state a) /\
   (forall r, r <> R16 ->
              regs (setLEDSequence ATmega328P (-5) reset_state) r
              = regs reset_state r) /\
   SREG (setLEDSequence ATmega328P (-5) reset_state) = SREG reset_state /\
   SP (setLEDSequence ATmega328P (-5) reset_state) = SP reset_state /\
   X (setLEDSequence ATmega328P (-5) reset_state) = X reset_state /\
   rx (setLEDSequence ATmega328P (-5) reset_state) = rx reset_state /\
   _receivedByte (setLEDSequence ATmega328P (-5) reset_state)
   = _receivedByte reset_state /\
   transmitted ATmega328P (setLEDSequence ATmega328P (-5) reset_state)
   = transmitted ATmega328P reset_state).
Proof.
  split; [simpl; lia|].
  apply (setLEDSequence_frame ATmega328P (-5) reset_state). simpl. lia.
Defined.

(** ** [ledTest] and [setup] *)

Lemma trace_log (e : event) (s : machine) : trace (log e s) = trace s ++ [e].
Proof. reflexivity. Qed.

Lemma mem_log (e : event) (s : machine) (a : Z) : mem (log e s) a = mem s a.
Proof. reflexivity. Qed.

Lemma ledTest_trace (d : device) (s : machine) :
  trace (ledTest d s)
  = trace s ++ [EvDelay 1000; EvStore (PORTB d) RED;
                EvDelay 1000; EvStore (PORTB d) GREEN;
                EvDelay 1000; EvStore (PORTB d) BLUE;
                EvDelay 1000; EvStore (PORTB d) NONE].
Proof.
  cbv beta zeta delta [ledTest delay].
  repeat (rewrite setLEDSequence_trace || rewrite trace_log).
  repeat rewrite <- app_assoc. reflexivity.
Qed.

Lemma ledTest_mem (d : device) (s : machine) (a : Z) :
  mem (ledTest d s) a = if a =? PORTB d then NONE else mem s a.
Proof.
  cbv beta zeta delta [ledTest delay].
  repeat (rewrite setLEDSequence_mem || rewrite mem_log).
  destruct (a =? PORTB d); reflexivity.
Qed.




Lemma setLEDSequence_receivedByte (d : device) (ledPin : Z) (s : machine) :
  _receivedByte (setLEDSequence d ledPin s) = _receivedByte s.
Proof. apply setLEDSequence_rest. Qed.

Lemma log_rest (e : event) (s : machine) :
  SREG (log e s) = SREG s /\ SP (log e s) = SP s /\ X (log e s) = X s /\
  _receivedByte (log e s) = _receivedByte s /\ regs (log e s) = regs s.
Proof. repeat split. Qed.

Lemma ledTest_rest (d : device) (s : machine) :
  SREG (ledTest d s) = SREG s /\ SP (ledTest d s) = SP s /\
  X (ledTest d s) = X s /\ rx (ledTest d s) = rx s /\
  _receivedByte (ledTest d s) = _receivedByte s.
Proof.
  cbv beta zeta delta [ledTest delay]. repeat split.
Qed.


Lemma mem_exec_LDI (r : reg) (k : Z) (s : machine) (a : Z) :
  mem (exec (LDI r k) s) a = mem s a.
Proof. reflexivity. Qed.

Lemma regs_exec_LDI (r : reg) (k : Z) (s : machine) :
  regs (exec (LDI r k) s) r = k.
Proof. cbn. destruct r; reflexivity. Qed.

Lemma mem_exec_OUT (io : Z) (r : reg) (s : machine) (a : Z) :
  mem (exec (OUT io r) s) a
  = if a =? io + SFR_OFFSET then regs s r else mem s a.
Proof. reflexivity. Qed.

Lemma mem_exec_CBI (io bit : Z) (s : machine) (a : Z) :
  mem (exec (CBI io bit) s) a
  = if a =? io + SFR_OFFSET
    then Z.clearbit (mem s (io + SFR_OFFSET)) bit else mem s a.
Proof. reflexivity. Qed.

Lemma mem_exec_SEI (s : machine) (a : Z) : mem (exec SEI s) a = mem s a.
Proof. reflexivity. Qed.

Lemma mem_or_assign (a bits : Z) (s : machine) (a' : Z) :
  mem (or_assign a bits s) a'
  = if a' =? a then Z.lor (mem s a) bits else mem s a'.
Proof. reflexivity. Qed.

Lemma trace_or_assign (a bits : Z) (s : machine) :
  trace (or_assign a bits s)
  = trace s ++ [EvLoad a (mem s a); EvStore a (Z.lor (mem s a) bits)].
Proof.
  unfold or_assign. cbv zeta. rewrite trace_store, trace_log, mem_log.
  now rewrite <- app_assoc.
Qed.

Lemma SREG_or_assign (a bits : Z) (s : machine) :
  SREG (or_assign a bits s) = SREG s.
Proof. reflexivity. Qed.

Lemma setup_mem_raw (d : device) (s : machine) (a : Z) :
  wf_setup d ->
  mem (setup d s) a
  = if a =? PORTB d then 0x0e
    else if a =? EIMSK d then Z.lor (mem s (EIMSK d)) 0x01
    else if a =? EICRA d then Z.lor (mem s (EICRA d)) 0x01
    else if a =? DDRD d then Z.clearbit (mem s (DDRD d)) (DDD2 d)
    else if a =? DDRB d then 0x0f
    else mem s a.
Proof.
  intros Hd. unfold wf_setup in Hd.
  cbv beta zeta delta [setup Serial_begin].
  rewrite mem_log, ledTest_mem.
  repeat (rewrite mem_exec_SEI || rewrite mem_or_assign
          || rewrite mem_exec_CBI
          || rewrite mem_exec_OUT || rewrite mem_exec_LDI
          || rewrite regs_exec_LDI || rewrite io_addr_back).
  repeat match goal with
         | |- context [?x =? ?y] =>
             destruct (Z.eqb_spec x y); cbv beta iota;
             try (exfalso; intuition congruence)
         end; reflexivity.
Qed.

(** X4. The registers the sketch configures, after [setup], on a
    device where they are distinct: DDRB holds 0x0f (pins 0..3
    outputs, 4..7 inputs); in DDRD bit DDD2 is cleared and in EICRA and
    EIMSK bit 0 is set, their other bits being kept (so INT0 triggers
    on any change only if bit 1 of EICRA was clear before); PORTB holds
    NONE; the I flag is set. *)
Theorem setup_registers (d : device) (s : machine) :
  wf_setup d ->
  mem (setup d s) (DDRB d) = 0x0f /\
  mem (setup d s) (DDRD d) = Z.clearbit (mem s (DDRD d)) (DDD2 d) /\
  mem (setup d s) (EICRA d) = Z.lor (mem s (EICRA d)) 0x01 /\
  mem (setup d s) (EIMSK d) = Z.lor (mem s (EIMSK d)) 0x01 /\
  Z.testbit (mem (setup d s) (EICRA d)) 0 = true /\
  Z.testbit (mem (setup d s) (EICRA d)) 1 = Z.testbit (mem s (EICRA d)) 1 /\
  Z.testbit (mem (setup d s) (EIMSK d)) 0 = true /\
  mem (setup d s) (PORTB d) = 0x0e /\
  I_flag (setup d s) = true.
Proof.
  intros Hd. pose proof Hd as Hd'. unfold wf_setup in Hd'.
  assert (E1 : mem (setup d s) (EICRA d) = Z.lor (mem s (EICRA d)) 0x01).
  { rewrite setup_mem_raw by exact Hd.
    repeat match goal with
           | |- context [?x =? ?y] =>
               destruct (Z.eqb_spec x y); cbv beta iota;
               try (exfalso; intuition congruence)
           end; reflexivity. }
  assert (E2 : mem (setup d s) (EIMSK d) = Z.lor (mem s (EIMSK d)) 0x01).
  { rewrite setup_mem_raw by exact Hd.
    repeat match goal with
           | |- context [?x =? ?y] =>
               destruct (Z.eqb_spec x y); cbv beta iota;
               try (exfalso; intuition congruence)
           end; reflexivity. }
  split.
  { rewrite setup_mem_raw by exact Hd.
    repeat match goal with
           | |- context [?x =? ?y] =>
               destruct (Z.eqb_spec x y); cbv beta iota;
               try (exfalso; intuition congruence)
           end; reflexivity. }
  split.
  { rewrite setup_mem_raw by exact Hd.
    repeat match goal with
           | |- context [?x =? ?y] =>
               destruct (Z.eqb_spec x y); cbv beta iota;
               try (exfalso; intuition congruence)
           end; reflexivity. }
  split; [exact E1|]. split; [exact E2|].
  split. { rewrite E1, Z.lor_spec. apply orb_true_r. }
  split. { rewrite E1, Z.lor_spec. apply orb_false_r. }
  split. { rewrite E2, Z.lor_spec. apply orb_true_r. }
  split. { rewrite setup_mem_raw by exact Hd. now rewrite Z.eqb_refl. }
  unfold I_flag. cbv beta zeta delta [setup Serial_begin].
  rewrite (proj1 (log_rest _ _)), (proj1 (ledTest_rest _ _)).
  cbn [exec log set_SREG SREG]. apply Z.setbit_eq. lia.
Qed.

Lemma setup_registers_witness :
  wf_setup ATmega328P /\
  (mem (setup ATmega328P reset_state) (DDRB ATmega328P) = 0x0f /\
   mem (setup ATmega328P reset_state) (DDRD ATmega328P)
   = Z.clearbit (mem reset_state (DDRD ATmega328P)) (DDD2 ATmega328P) /\
   mem (setup ATmega328P reset_state) (EICRA ATmega328P)
   = Z.lor (mem reset_state (EICRA ATmega328P)) 0x01 /\
   mem (setup ATmega328P reset_state) (EIMSK ATmega328P)
   = Z.lor (mem reset_state (EIMSK ATmega328P)) 0x01 /\
   Z.testbit (mem (setup ATmega328P reset_state) (EICRA ATmega328P)) 0
   = true /\
   Z.testbit (mem (setup ATmega328P reset_state) (EICRA ATmega328P)) 1
   = Z.testbit (mem reset_state (EICRA ATmega328P)) 1 /\
   Z.testbit (mem (setup ATmega328P reset_state) (EIMSK ATmega328P)) 0
   = true /\
   mem (setup ATmega328P reset_state) (PORTB ATmega328P) = 0x0e /\
   I_flag (setup ATmega328P reset_state) = true).
Proof.
  split; [unfold wf_setup; simpl; lia|].
  apply (setup_registers ATmega328P reset_state).
  unfold wf_setup. simpl. lia.
Defined.

Lemma trace_exec_LDI (r : reg) (k : Z) (s : machine) :
  trace (exec (LDI r k) s) = trace s.
Proof. reflexivity. Qed.

Lemma trace_exec_OUT (io : Z) (r : reg) (s : machine) :
  trace (exec (OUT io r) s) = trace s ++ [EvStore (io + SFR_OFFSET) (regs s r)].
Proof. reflexivity. Qed.

Lemma trace_exec_CBI (io bit : Z) (s : machine) :
  trace (exec (CBI io bit) s)
  = trace s ++ [EvStore (io + SFR_OFFSET)
                        (Z.clearbit (mem s (io + SFR_OFFSET)) bit)].
Proof. reflexivity. Qed.

Lemma trace_exec_SEI (s : machine) : trace (exec SEI s) = trace s ++ [EvSei].
Proof. reflexivity. Qed.

(** X5. What the sketch's [setup] does, in order, on a device where
    the registers it writes are distinct: the store to DDRB, the [cbi]
    on DDRD, the load and the store of [EICRA |= 0x01], the load and
    the store of [EIMSK |= 0x01], then [sei], then the start-up test
    (four delays of 1000 ms, 4000 ms in all), then the call of
    [Serial.begin(9600)].  So the interrupts are enabled before the
    start-up test and before the serial port is started. *)
Theorem setup_order (d : device) (s : machine) :
  wf_setup d ->
  new_events s (setup d s)
  = [EvStore (DDRB d) 0x0f;
     EvStore (DDRD d) (Z.clearbit (mem s (DDRD d)) (DDD2 d));
     EvLoad (EICRA d) (mem s (EICRA d));
     EvStore (EICRA d) (Z.lor (mem s (EICRA d)) 0x01);
     EvLoad (EIMSK d) (mem s (EIMSK d));
     EvStore (EIMSK d) (Z.lor (mem s (EIMSK d)) 0x01);
     EvSei;
     EvDelay 1000; EvStore (PORTB d) 0x0d;
     EvDelay 1000; EvStore (PORTB d) 0x0b;
     EvDelay 1000; EvStore (PORTB d) 0x07;
     EvDelay 1000; EvStore (PORTB d) 0x0e;
     EvSerialBegin 9600] /\
  delayed (new_events s (setup d s)) = 4000.
Proof.
  intros Hd. pose proof Hd as Hd'. unfold wf_setup in Hd'.
  assert (Htr : trace (setup d s)
                = trace s ++
                  [EvStore (DDRB d) 0x0f;
                   EvStore (DDRD d) (Z.clearbit (mem s (DDRD d)) (DDD2 d));
                   EvLoad (EICRA d) (mem s (EICRA d));
                   EvStore (EICRA d) (Z.lor (mem s (EICRA d)) 0x01);
                   EvLoad (EIMSK d) (mem s (EIMSK d));
                   EvStore (EIMSK d) (Z.lor (mem s (EIMSK d)) 0x01);
                   EvSei;
                   EvDelay 1000; EvStore (PORTB d) 0x0d;
                   EvDelay 1000; EvStore (PORTB d) 0x0b;
                   EvDelay 1000; EvStore (PORTB d) 0x07;
                   EvDelay 1000; EvStore (PORTB d) 0x0e;
                   EvSerialBegin 9600]).
  { cbv beta zeta delta [setup Serial_begin].
    rewrite trace_log, ledTest_trace, trace_exec_SEI, !trace_or_assign,
      trace_exec_CBI, trace_exec_OUT, trace_exec_LDI.
    repeat (rewrite mem_exec_SEI || rewrite mem_or_assign
            || rewrite mem_exec_CBI
            || rewrite mem_exec_OUT || rewrite mem_exec_LDI
            || rewrite regs_exec_LDI || rewrite io_addr_back).
    repeat match goal with
           | |- context [?x =? ?y] =>
               destruct (Z.eqb_spec x y); cbv beta iota;
               try (exfalso; intuition congruence)
           end.
    repeat rewrite <- app_assoc. reflexivity. }
  rewrite (new_events_app s _ _ Htr).
  split; reflexivity.
Qed.

Lemma setup_order_witness :
  wf_setup ATmega328P /\
  (new_events reset_state (setup ATmega328P reset_state)
   = [EvStore (DDRB ATmega328P) 0x0f;
      EvStore (DDRD ATmega328P)
              (Z.clearbit (mem reset_state (DDRD ATmega328P))
                          (DDD2 ATmega328P));
      EvLoad (EICRA ATmega328P) (mem reset_state (EICRA ATmega328P));
      EvStore (EICRA ATmega328P)
              (Z.lor (mem reset_state (EICRA ATmega328P)) 0x01);
      EvLoad (EIMSK ATmega328P) (mem reset_state (EIMSK ATmega328P));
      EvStore (EIMSK ATmega328P)
              (Z.lor (mem reset_state (EIMSK ATmega328P)) 0x01);
      EvSei;
      EvDelay 1000; EvStore (PORTB ATmega328P) 0x0d;
      EvDelay 1000; EvStore (PORTB ATmega328P) 0x0b;
      EvDelay 1000; EvStore (PORTB ATmega328P) 0x07;
      EvDelay 1000; EvStore (PORTB ATmega328P) 0x0e;
      EvSerialBegin 9600] /\
   delayed (new_events reset_state (setup ATmega328P reset_state)) = 4000).
Proof.
  split; [unfold wf_setup; simpl; lia|].
  apply (setup_order ATmega328P reset_state).
  unfold wf_setup. simpl. lia.
Defined.

(** ** The foreground loop *)

(** X6. With no byte waiting, [loop] changes nothing at all, however
    often it runs: the machine is the same, no event is added. *)
Theorem idle_loop_changes_nothing (d : device) (n : nat) (s : machine) :
  rx s = [] ->
  loops d n s = s /\ new_events s (loops d n s) = [].
Proof.
  intros H. rewrite (loops_idle d n s H). split; [reflexivity|].
  apply new_events_app. now rewrite app_nil_r.
Qed.

Lemma idle_loop_changes_nothing_witness :
  rx (setup ATmega328P reset_state) = [] /\
  (loops ATmega328P 5 (setup ATmega328P reset_state)
   = setup ATmega328P reset_state /\
   new_events (setup ATmega328P reset_state)
              (loops ATmega328P 5 (setup ATmega328P reset_state)) = []).
Proof.
  split; [reflexivity|].
  apply (idle_loop_changes_nothing ATmega328P 5 (setup ATmega328P reset_state)).
  reflexivity.
Defined.

Lemma loops_prefix (d : device) (k : nat) :
  forall (bs : list Z) (s : machine),
    Forall (fun b => 0 <= b < 256) bs ->
    rx s = bs ->
    trace (loops d k s)
    = trace s ++ map (fun b => EvStore (PORTB d) (spec_pattern b))
                     (firstn k bs) /\
    rx (loops d k s) = skipn k bs.
Proof.
  induction k as [|k IH]; intros bs s Hbs Hrx.
  - cbn [loops firstn skipn map]. now rewrite app_nil_r.
  - destruct Hbs as [|b bs Hb Hbs].
    + rewrite (loops_idle d (S k) s Hrx).
      cbn [firstn skipn map]. now rewrite app_nil_r.
    + cbn [loops firstn skipn map].
      destruct (loop_cons_effect d s b bs Hb Hrx) as (Htr & _ & Hrx').
      destruct (IH bs (loop d s) Hbs Hrx') as (Htr2 & Hrx2).
      split; [|exact Hrx2].
      rewrite Htr2, Htr, <- app_assoc. reflexivity.
Qed.

Lemma stores_to_map_port (d : device) (ps : list Z) :
  stores_to (PORTB d) (map (fun p => EvStore (PORTB d) p) ps) = ps.
Proof.
  induction ps as [|p ps IH]; cbn [map stores_to]; [reflexivity|].
  now rewrite Z.eqb_refl, IH.
Qed.

(** X7. The loop takes the received bytes one per iteration, in the
    order they arrived: after k iterations exactly the first k bytes
    have been rendered, each by one port write, and the others still
    wait in the buffer in their order. *)
Theorem loop_renders_in_order
  (d : device) (k : nat) (bs : list Z) (s : machine) :
  Forall (fun b => 0 <= b < 256) bs ->
  rx s = bs ->
  new_events s (loops d k s)
  = map (fun b => EvStore (PORTB d) (spec_pattern b)) (firstn k bs) /\
  port_writes d (loops d k s)
  = port_writes d s ++ map spec_pattern (firstn k bs) /\
  rx (loops d k s) = skipn k bs.
Proof.
  intros Hbs Hrx.
  destruct (loops_prefix d k bs s Hbs Hrx) as (Htr & Hrx').
  split; [now apply new_events_app|]. split; [|exact Hrx'].
  unfold port_writes. rewrite Htr, stores_to_app. f_equal.
  rewrite <- (stores_to_map_port d (map spec_pattern (firstn k bs))).
  now rewrite map_map.
Qed.

Lemma loop_renders_in_order_witness :
  (Forall (fun b => 0 <= b < 256) [114; 200; 98] /\
   rx (set_rx [114; 200; 98] reset_state) = [114; 200; 98]) /\
  (new_events (set_rx [114; 200; 98] reset_state)
              (loops ATmega328P 2 (set_rx [114; 200; 98] reset_state))
   = map (fun b => EvStore (PORTB ATmega328P) (spec_pattern b))
         (firstn 2 [114; 200; 98]) /\
   port_writes ATmega328P
               (loops ATmega328P 2 (set_rx [114; 200; 98] reset_state))
   = port_writes ATmega328P (set_rx [114; 200; 98] reset_state)
     ++ map spec_pattern (firstn 2 [114; 200; 98]) /\
   rx (loops ATmega328P 2 (set_rx [114; 200; 98] reset_state))
   = skipn 2 [114; 200; 98]).
Proof.
  assert (F : Forall (fun b => 0 <= b < 256) [114; 200; 98])
    by (repeat constructor; lia).
  split; [split; [exact F | reflexivity]|].
  apply (loop_renders_in_order ATmega328P 2 [114; 200; 98]
                               (set_rx [114; 200; 98] reset_state) F).
  reflexivity.
Defined.

Lemma last_cons_default (A : Type) (x y : A) (l : list A) :
  last (x :: l) y = last l x.
Proof.
  revert x y. induction l as [|z l IH]; intros x y; [reflexivity|].
  change (last (x :: z :: l) y) with (last (z :: l) y).
  change (last (z :: l) y = last (z :: l) x).
  now rewrite (IH z y), (IH z x).
Qed.

Lemma drained_port (d : device) (bs : list Z) (n : nat) :
  Forall (fun b => 0 <= b < 256) bs ->
  forall s, rx s = bs ->
            port d (loops d (length bs + n) s)
            = last (map spec_pattern bs) (port d s).
Proof.
  induction 1 as [|b bs Hb Hbs IH]; intros s Hrx.
  - cbn [length Nat.add map last]. now rewrite loops_idle.
  - cbn [length Nat.add loops map].
    destruct (loop_cons_effect d s b bs Hb Hrx) as (_ & Hport & Hrx').
    rewrite (IH (loop d s) Hrx'), Hport.
    symmetry. apply last_cons_default.
Qed.

(** X8. Once the buffer is drained the port shows the pattern of the
    last byte received (and what it showed before when none was), and
    stays so however long the loop goes on. *)
Theorem last_byte_wins (d : device) (bs : list Z) (n : nat) (s : machine) :
  Forall (fun b => 0 <= b < 256) bs ->
  rx s = bs ->
  port d (loops d (length bs + n) s) = last (map spec_pattern bs) (port d s) /\
  rx (loops d (length bs + n) s) = [].
Proof.
  intros Hbs Hrx. split; [now apply drained_port|].
  now apply loops_drain.
Qed.

Lemma last_byte_wins_witness :
  (Forall (fun b => 0 <= b < 256) [114; 200; 98] /\
   rx (set_rx [114; 200; 98] reset_state) = [114; 200; 98]) /\
  (port ATmega328P
        (loops ATmega328P (length [114; 200; 98] + 4)
               (set_rx [114; 200; 98] reset_state))
   = last (map spec_pattern [114; 200; 98])
          (port ATmega328P (set_rx [114; 200; 98] reset_state)) /\
   rx (loops ATmega328P (length [114; 200; 98] + 4)
             (set_rx [114; 200; 98] reset_state)) = []).
Proof.
  assert (F : Forall (fun b => 0 <= b < 256) [114; 200; 98])
    by (repeat constructor; lia).
  split; [split; [exact F | reflexivity]|].
  apply (last_byte_wins ATmega328P [114; 200; 98] 4
                        (set_rx [114; 200; 98] reset_state) F).
  reflexivity.
Defined.

(** ** The handler, further *)

Lemma setbit_clearbit_7 (a : Z) : Z.setbit (Z.clearbit a 7) 7 = Z.setbit a 7.
Proof.
  apply Z.bits_inj'. intros n Hn.
  rewrite !Z.setbit_eqb, Z.clearbit_eqb by lia.
  destruct (7 =? n); [reflexivity|]. cbn. now rewrite andb_true_r.
Qed.

(** Every field of the state in which the handler returns. *)
Lemma ISR_INT0_vect_fields (d : device) (fuel : nat) (s s' : machine) :
  ISR_INT0_vect d fuel s = Some s' ->
  (forall a,
      mem s' a
      = if a =? UDR0 d then 0x43
        else if a =? X s then Z.land (SFR_IO_ADDR (UCSR0A d)) 0xFF
        else if a =? SP s then SREG s
        else mem s a) /\
  SREG s' = Z.setbit (SREG s) 7 /\
  regs s' R18 = regs s R18 /\
  _receivedByte s' = _receivedByte s.
Proof.
  unfold ISR_INT0_vect. rewrite ISR_prologue.
  match goal with
  | |- match USART_Transmit d fuel ?p with _ => _ end = _ -> _ =>
      destruct (USART_Transmit d fuel p) as [s1|] eqn:E; [|discriminate]
  end.
  apply USART_Transmit_some in E. destruct E as (_ & Hs1).
  rewrite spin_pass in Hs1.
  cbn [regs X SP SREG mem rx _receivedByte trace reg_eqb] in Hs1.
  rewrite ISR_epilogue. intros H.
  apply (f_equal (fun o => match o with Some x => x | None => s end)) in H.
  rewrite <- H, Hs1. clear H Hs1.
  cbn [regs X SP SREG mem rx _receivedByte trace reg_eqb].
  repeat split; try reflexivity.
  apply setbit_clearbit_7.
Qed.

(** X9. The registers when the handler's body ends, for a body that
    starts with X and the stack pointer addressing SRAM: r16 holds the
    constant [_SFR_IO_ADDR(UCSR0A)] that was stored through X and read
    back, r17 holds 0x43, whatever the two held when the body started;
    r18 is as it was; the status register has the I flag set and its
    other bits as when the body started (the copy that was pushed is
    popped into the operand register, not into SREG); the stack pointer
    is back where it was and X is unchanged. *)
Theorem handler_registers (d : device) (fuel : nat) (s s' : machine) :
  wf_device d ->
  in_sram d (X s) ->
  in_sram d (SP s) ->
  ISR_INT0_vect d fuel s = Some s' ->
  regs s' R16 = Z.land (SFR_IO_ADDR (UCSR0A d)) 0xFF /\
  regs s' R17 = 0x43 /\
  regs s' R18 = regs s R18 /\
  SREG s' = Z.setbit (SREG s) 7 /\
  SP s' = SP s /\ X s' = X s.
Proof.
  intros _ _ _ H.
  destruct (ISR_INT0_vect_some d fuel s s' H)
    as (w & _ & H16 & H17 & _ & HSP & HX & _).
  destruct (ISR_INT0_vect_fields d fuel s s' H) as (_ & HS & H18 & _).
  repeat split; assumption.
Qed.

Lemma handler_registers_witness :
  (wf_device ATmega328P /\
   in_sram ATmega328P (X reset_state) /\
   in_sram ATmega328P (SP reset_state) /\
   ISR_INT0_vect ATmega328P 1 reset_state
   = Some (after_ISR ATmega328P 1 reset_state)) /\
  (regs (after_ISR ATmega328P 1 reset_state) R16
   = Z.land (SFR_IO_ADDR (UCSR0A ATmega328P)) 0xFF /\
   regs (after_ISR ATmega328P 1 reset_state) R17 = 0x43 /\
   regs (after_ISR ATmega328P 1 reset_state) R18 = regs reset_state R18 /\
   SREG (after_ISR ATmega328P 1 reset_state) = Z.setbit (SREG reset_state) 7 /\
   SP (after_ISR ATmega328P 1 reset_state) = SP reset_state /\
   X (after_ISR ATmega328P 1 reset_state) = X reset_state).
Proof.
  assert (H : ISR_INT0_vect ATmega328P 1 reset_state
              = Some (after_ISR ATmega328P 1 reset_state))
    by (vm_compute; reflexivity).
  assert (W : wf_device ATmega328P)
    by (unfold wf_device, SFR_OFFSET; simpl; lia).
  assert (I1 : in_sram ATmega328P (X reset_state))
    by (unfold in_sram; simpl; lia).
  assert (I2 : in_sram ATmega328P (SP reset_state))
    by (unfold in_sram; simpl; lia).
  split; [exact (conj W (conj I1 (conj I2 H)))|].
  exact (handler_registers ATmega328P 1 reset_state _ W I1 I2 H).
Defined.

(** X10. What the handler's body does to the SRAM, for a body that
    starts with X and the stack pointer addressing SRAM: when it ends,
    the cell X points to holds the constant [_SFR_IO_ADDR(UCSR0A)]
    (the [st X, %1] is a store), the cell the stack pointer pointed to
    holds the copy of SREG that the body pushed (unless X points to
    that very cell), and every other SRAM cell is as it was when the
    body started. *)
Theorem handler_memory (d : device) (fuel : nat) (s s' : machine) (a : Z) :
  wf_device d ->
  in_sram d (X s) ->
  in_sram d (SP s) ->
  in_sram d a ->
  ISR_INT0_vect d fuel s = Some s' ->
  mem s' a
  = if a =? X s then Z.land (SFR_IO_ADDR (UCSR0A d)) 0xFF
    else if a =? SP s then SREG s
    else mem s a.
Proof.
  intros Hd _ _ Ha H.
  rewrite (proj1 (ISR_INT0_vect_fields d fuel s s' H) a).
  assert (N : (a =? UDR0 d) = false).
  { apply Z.eqb_neq. unfold wf_device, in_sram in *. lia. }
  now rewrite N.
Qed.

Lemma handler_memory_witness :
  (wf_device ATmega328P /\
   in_sram ATmega328P (X reset_state) /\
   in_sram ATmega328P (SP reset_state) /\
   in_sram ATmega328P 0x100 /\
   ISR_INT0_vect ATmega328P 1 reset_state
   = Some (after_ISR ATmega328P 1 reset_state)) /\
  mem (after_ISR ATmega328P 1 reset_state) 0x100
  = (if 0x100 =? X reset_state
     then Z.land (SFR_IO_ADDR (UCSR0A ATmega328P)) 0xFF
     else if 0x100 =? SP reset_state then SREG reset_state
     else mem reset_state 0x100).
Proof.
  assert (H : ISR_INT0_vect ATmega328P 1 reset_state
              = Some (after_ISR ATmega328P 1 reset_state))
    by (vm_compute; reflexivity).
  assert (W : wf_device ATmega328P)
    by (unfold wf_device, SFR_OFFSET; simpl; lia).
  assert (I1 : in_sram ATmega328P (X reset_state))
    by (unfold in_sram; simpl; lia).
  assert (I2 : in_sram ATmega328P (SP reset_state))
    by (unfold in_sram; simpl; lia).
  assert (I3 : in_sram ATmega328P 0x100)
    by (unfold in_sram; simpl; lia).
  split; [exact (conj W (conj I1 (conj I2 (conj I3 H))))|].
  exact (handler_memory ATmega328P 1 reset_state _ 0x100 W I1 I2 I3 H).
Defined.

(** For instance the SRAM cell at 0x100, zero before, holds 0xA0 after
    one edge. *)
Example handler_stray_store :
  mem reset_state 0x100 = 0 /\
  mem (after_ISR ATmega328P 1 reset_state) 0x100 = 0xA0.
Proof. split; vm_compute; reflexivity. Qed.

Lemma handler_port_aux (d : device) (fuel : nat) (s s' : machine) :
  wf_device d ->
  in_sram d (X s) ->
  in_sram d (SP s) ->
  ISR_INT0_vect d fuel s = Some s' ->
  port d s' = port d s /\ port_writes d s' = port_writes d s.
Proof.
  intros Hd HX HSP H.
  assert (N0 : (PORTB d =? UDR0 d) = false).
  { apply Z.eqb_neq. unfold wf_device in Hd. tauto. }
  assert (N1 : (PORTB d =? X s) = false).
  { apply Z.eqb_neq. unfold wf_device, in_sram in *. lia. }
  assert (N2 : (PORTB d =? SP s) = false).
  { apply Z.eqb_neq. unfold wf_device, in_sram in *. lia. }
  split.
  - unfold port.
    rewrite (proj1 (ISR_INT0_vect_fields d fuel s s' H) (PORTB d)).
    now rewrite N0, N1, N2.
  - destruct (ISR_INT0_vect_some d fuel s s' H) as (w & Htr & _).
    unfold port_writes. rewrite Htr, stores_to_app. cbn [stores_to].
    rewrite (Z.eqb_sym (SP s)), (Z.eqb_sym (X s)), (Z.eqb_sym (UDR0 d)).
    rewrite N0, N1, N2. apply app_nil_r.
Qed.

(** X11. The handler does not touch the LED port: with X and the stack
    pointer in SRAM, the port holds after the handler what it held
    before, and no write to it was made. *)
Theorem handler_keeps_port (d : device) (fuel : nat) (s s' : machine) :
  wf_device d ->
  in_sram d (X s) ->
  in_sram d (SP s) ->
  ISR_INT0_vect d fuel s = Some s' ->
  port d s' = port d s /\ port_writes d s' = port_writes d s.
Proof. apply handler_port_aux. Qed.

Lemma handler_keeps_port_witness :
  (wf_device ATmega328P /\
   in_sram ATmega328P (X (setup ATmega328P reset_state)) /\
   in_sram ATmega328P (SP (setup ATmega328P reset_state)) /\
   ISR_INT0_vect ATmega328P 1 (setup ATmega328P reset_state)
   = Some (after_ISR ATmega328P 1 (setup ATmega328P reset_state))) /\
  (port ATmega328P (after_ISR ATmega328P 1 (setup ATmega328P reset_state))
   = port ATmega328P (setup ATmega328P reset_state) /\
   port_writes ATmega328P
               (after_ISR ATmega328P 1 (setup ATmega328P reset_state))
   = port_writes ATmega328P (setup ATmega328P reset_state)).
Proof.
  assert (H : ISR_INT0_vect ATmega328P 1 (setup ATmega328P reset_state)
              = Some (after_ISR ATmega328P 1 (setup ATmega328P reset_state)))
    by (vm_compute; reflexivity).
  assert (W : wf_device ATmega328P)
    by (unfold wf_device, SFR_OFFSET; simpl; lia).
  assert (I1 : in_sram ATmega328P (X (setup ATmega328P reset_state)))
    by (unfold in_sram; vm_compute; split; discriminate).
  assert (I2 : in_sram ATmega328P (SP (setup ATmega328P reset_state)))
    by (unfold in_sram; vm_compute; split; discriminate).
  split; [exact (conj W (conj I1 (conj I2 H)))|].
  exact (handler_keeps_port ATmega328P 1 (setup ATmega328P reset_state) _
                            W I1 I2 H).
Defined.

(** X12. For a handler that starts with X and the stack pointer
    addressing SRAM, the spin loop makes one pass or never ends: with
    any fuel the handler gives what it gives with fuel for one pass,
    and it returns exactly when bit UDRE0 of the constant
    [_SFR_IO_ADDR(UCSR0A)] is set, whatever the rest of the machine
    state is (in particular whatever UCSR0A holds). *)
Theorem handler_one_pass_or_never (d : device) (fuel : nat) (s : machine) :
  wf_device d ->
  in_sram d (X s) ->
  in_sram d (SP s) ->
  ISR_INT0_vect d (S fuel) s = ISR_INT0_vect d 1 s /\
  ((exists s', ISR_INT0_vect d (S fuel) s = Some s') <-> spin_exits d).
Proof.
  intros _ _ _. split.
  - unfold ISR_INT0_vect. rewrite ISR_prologue, !USART_Transmit_step.
    cbn [regs reg_eqb].
    destruct (Z.testbit (Z.land (SFR_IO_ADDR (UCSR0A d)) 255) (UDRE0 d))
      eqn:E; [reflexivity|].
    rewrite !USART_Transmit_spins; [reflexivity | |];
      rewrite spin_pass; exact E.
  - split.
    + intros [s' H].
      destruct (ISR_INT0_vect_some d (S fuel) s s' H) as (w & Hw).
      apply Hw.
    + apply ISR_INT0_vect_returns.
Qed.

Lemma handler_one_pass_or_never_witness :
  (wf_device ATmega328P /\
   in_sram ATmega328P (X busy_state) /\
   in_sram ATmega328P (SP busy_state)) /\
  (ISR_INT0_vect ATmega328P 4 busy_state = ISR_INT0_vect ATmega328P 1 busy_state /\
   ((exists s', ISR_INT0_vect ATmega328P 4 busy_state = Some s')
    <-> spin_exits ATmega328P)).
Proof.
  assert (W : wf_device ATmega328P)
    by (unfold wf_device, SFR_OFFSET; simpl; lia).
  assert (I1 : in_sram ATmega328P (X busy_state))
    by (unfold in_sram; simpl; lia).
  assert (I2 : in_sram ATmega328P (SP busy_state))
    by (unfold in_sram; simpl; lia).
  split; [exact (conj W (conj I1 I2))|].
  exact (handler_one_pass_or_never ATmega328P 3 busy_state W I1 I2).
Defined.

Lemma handler_tx_aux (d : device) (fuel : nat) (s s' : machine) :
  wf_device d ->
  in_sram d (X s) ->
  in_sram d (SP s) ->
  ISR_INT0_vect d fuel s = Some s' ->
  transmitted d s' = transmitted d s ++ [0x43].
Proof.
  intros Hd HX HSP H.
  destruct (ISR_INT0_vect_some d fuel s s' H) as (w & Htr & _).
  assert (N1 : (SP s =? UDR0 d) = false).
  { apply Z.eqb_neq. unfold wf_device, in_sram in *. lia. }
  assert (N2 : (X s =? UDR0 d) = false).
  { apply Z.eqb_neq. unfold wf_device, in_sram in *. lia. }
  unfold transmitted. rewrite Htr, stores_to_app. cbn [stores_to].
  now rewrite N1, N2, Z.eqb_refl.
Qed.

(** One edge served, in full. *)
Lemma irq_effect (d : device) (fuel : nat) (c : system) :
  wf_device d ->
  spin_exits d ->
  in_sram d (X (cpu c)) ->
  in_sram d (SP (cpu c)) ->
  I_flag (cpu c) = true ->
  exists c',
    irq d (S fuel) c = Some c' /\
    pc c' = pc c /\
    transmitted d (cpu c') = transmitted d (cpu c) ++ [0x43] /\
    port d (cpu c') = port d (cpu c) /\
    port_writes d (cpu c') = port_writes d (cpu c) /\
    X (cpu c') = X (cpu c) /\ SP (cpu c') = SP (cpu c) /\
    I_flag (cpu c') = true /\
    rx (cpu c') = rx (cpu c).
Proof.
  intros Hd Hx HX HSP HI.
  destruct (ISR_INT0_vect_returns d fuel (cpu c) Hx) as (s' & Hs').
  pose proof (handler_tx_aux d (S fuel) (cpu c) s' Hd HX HSP Hs') as Htx.
  destruct (ISR_INT0_vect_some d (S fuel) (cpu c) s' Hs')
    as (w & _ & _ & _ & HI' & HSP' & HX' & Hrx' & _).
  destruct (handler_port_aux d (S fuel) (cpu c) s' Hd HX HSP Hs')
    as (Hp & Hpw).
  exists (mkSystem s' (pc c)). unfold irq. rewrite HI, Hs'.
  cbn [cpu pc]. repeat split; assumption.
Qed.

(** X13. Edges served one after the other, wherever the foreground
    stands: n edges hand n bytes 0x43 to the transmitter and nothing
    else, and leave the port and the foreground's position as they
    were. *)
Theorem edges_transmit_Cs (d : device) (n : nat) (c : system) :
  wf_device d ->
  spin_exits d ->
  in_sram d (X (cpu c)) ->
  in_sram d (SP (cpu c)) ->
  I_flag (cpu c) = true ->
  exists c',
    run d (repeat (Edge 1) n) c = Some c' /\
    transmitted d (cpu c') = transmitted d (cpu c) ++ repeat 0x43 n /\
    port d (cpu c') = port d (cpu c) /\
    port_writes d (cpu c') = port_writes d (cpu c) /\
    pc c' = pc c.
Proof.
  intros Hd Hx. revert c.
  induction n as [|n IH]; intros c HX HSP HI.
  - exists c. cbn [repeat run]. rewrite app_nil_r. auto.
  - destruct (irq_effect d 0 c Hd Hx HX HSP HI)
      as (c1 & Hirq & Hpc & Htx & Hp & Hpw & HX1 & HSP1 & HI1 & _).
    rewrite <- HX1 in HX. rewrite <- HSP1 in HSP.
    destruct (IH c1 HX HSP HI1) as (c' & Hrun & Htx' & Hp' & Hpw' & Hpc').
    exists c'. cbn [repeat run]. rewrite Hirq.
    split; [exact Hrun|]. split.
    { rewrite Htx', Htx, <- app_assoc. reflexivity. }
    repeat split; congruence.
Qed.

Lemma edges_transmit_Cs_witness :
  (wf_device ATmega328P /\ spin_exits ATmega328P /\
   in_sram ATmega328P (X (cpu booted_r)) /\
   in_sram ATmega328P (SP (cpu booted_r)) /\
   I_flag (cpu booted_r) = true) /\
  exists c',
    run ATmega328P (repeat (Edge 1) 3) booted_r = Some c' /\
    transmitted ATmega328P (cpu c')
    = transmitted ATmega328P (cpu booted_r) ++ repeat 0x43 3 /\
    port ATmega328P (cpu c') = port ATmega328P (cpu booted_r) /\
    port_writes ATmega328P (cpu c') = port_writes ATmega328P (cpu booted_r) /\
    pc c' = pc booted_r.
Proof.
  assert (W : wf_device ATmega328P)
    by (unfold wf_device, SFR_OFFSET; simpl; lia).
  assert (E : spin_exits ATmega328P) by reflexivity.
  assert (I1 : in_sram ATmega328P (X (cpu booted_r)))
    by (unfold in_sram; vm_compute; split; discriminate).
  assert (I2 : in_sram ATmega328P (SP (cpu booted_r)))
    by (unfold in_sram; vm_compute; split; discriminate).
  assert (F : I_flag (cpu booted_r) = true) by (vm_compute; reflexivity).
  split; [exact (conj W (conj E (conj I1 (conj I2 F))))|].
  exact (edges_transmit_Cs ATmega328P 3 booted_r W E I1 I2 F).
Defined.










